(** * Staff Graded Assignment XBlock (edx_sga/edx_sga.py)

    A shallow embedding of the upload and download handlers of
    [StaffGradedAssignmentXBlock], of the student-facing projection
    [student_state] and of the module-level helpers [_file_storage_path],
    [_get_sha1] and [_now], together with the properties of the
    submission subsystem that the specification states about them.

    Python exceptions are values of [exn]; a call that may raise returns a
    [result].  The block instance ([self]) is a record of its user-state
    fields; Django's [default_storage] is a finite map from paths to
    bytes; the handler [upload_assignment] is a line-by-line machine, so
    that the intermediate states of an upload can be talked about. *)

From Stdlib Require Import ZArith List String Ascii Bool Lia.
From Stdlib Require Import Strings.Byte.
From stdpp Require Import base option list gmap strings.

Set Warnings "-register-all".

Local Open Scope string_scope.
Local Open Scope Z_scope.

(** ** Python values and exceptions *)

(** The exception classes that the modelled code can raise. *)
Inductive exn : Type :=
| KeyError (key : string)          (* d[key] on a missing key *)
| AttributeError (attr : string)   (* x.attr where x has no such attribute *)
| NameError (var : string)         (* a local read before assignment *)
| TypeError                        (* str + None, a non-stream saved as a file *)
| AssertionError                   (* a failed assert *)
| IOError (path : string)          (* default_storage.open on a missing path *)
| DoesNotExist                     (* StudentModule.objects.get finds no row *)
| ValueError.                      (* int() of a text that denotes no integer *)

Inductive result (A : Type) : Type :=
| Ok (a : A)
| Raise (e : exn).
Arguments Ok {A} a.
Arguments Raise {A} e.

Definition bind {A B : Type} (r : result A) (k : A -> result B) : result B :=
  match r with
  | Ok a => k a
  | Raise e => Raise e
  end.

Notation "'let*' x ':=' r 'in' k" := (bind r (fun x => k))
  (at level 10, x name, r at level 100, k at level 200).

Definition is_ok {A : Type} (r : result A) : bool :=
  match r with Ok _ => true | Raise _ => false end.

(** The failure kinds of the specification's taxonomy.  The code defines
    none of them: it raises plain Python exceptions.  [kind_of] reads an
    exception as the failure kind that denotes the same condition, where
    there is one. *)
Inductive failure_kind : Type :=
| InvalidUploadError
| InvalidScopeError
| NotFoundError
| AuthorizationError
| StorageError
| NoSubmissionError.

Definition kind_of (e : exn) : option failure_kind :=
  match e with
  | AssertionError => Some InvalidScopeError   (* the one assert: the url scheme *)
  | DoesNotExist => Some NotFoundError         (* no such StudentModule row *)
  | IOError _ => Some NotFoundError            (* no blob at the path *)
  | KeyError _ | AttributeError _ | NameError _ | TypeError | ValueError => None
  end.

Definition fails_with {A : Type} (r : result A) (k : failure_kind) : Prop :=
  exists e, r = Raise e /\ kind_of e = Some k.

(** Truth value of a str-or-None field, as [if self.uploaded_sha1:] tests it. *)
Definition truthy (v : option string) : bool :=
  match v with
  | None => false
  | Some "" => false
  | Some _ => true
  end.

(** ** Strings: slices, [startswith], [rfind] *)

(** [s[n:]] for a non-negative [n]. *)
Fixpoint str_drop (n : nat) (s : string) : string :=
  match n, s with
  | O, _ => s
  | S n', String _ s' => str_drop n' s'
  | S _, EmptyString => EmptyString
  end.

(** [s[:n]] for a non-negative [n]. *)
Fixpoint str_take (n : nat) (s : string) : string :=
  match n, s with
  | O, _ => EmptyString
  | S n', String c s' => String c (str_take n' s')
  | S _, EmptyString => EmptyString
  end.

(** [s.startswith(p)]. *)
Fixpoint startswith (s p : string) : bool :=
  match p, s with
  | EmptyString, _ => true
  | String a p', String b s' => Ascii.eqb a b && startswith s' p'
  | String _ _, EmptyString => false
  end.

Fixpoint rfind_from (c : ascii) (s : string) (i last : Z) : Z :=
  match s with
  | EmptyString => last
  | String a s' => rfind_from c s' (i + 1) (if Ascii.eqb a c then i else last)
  end.

(** [s.rfind(c)]: the index of the last [c] in [s], or -1. *)
Definition rfind (s : string) (c : ascii) : Z := rfind_from c s 0 (-1).

Definition char_at (s : string) (i : Z) : option ascii :=
  if i <? 0 then None else String.get (Z.to_nat i) s.

(** ** [os.path.splitext] (posixpath, genericpath._splitext)

    sep is "/", there is no altsep, extsep is ".".  The loop skips the
    leading dots of the last path component; [fuel] bounds its
    iterations by the distance between the two indices. *)
Fixpoint splitext_scan (p : string) (dotIndex filenameIndex : Z) (fuel : nat)
  : string * string :=
  match fuel with
  | O => (p, "")
  | S fuel' =>
      if filenameIndex <? dotIndex then
        match char_at p filenameIndex with
        | Some c =>
            if Ascii.eqb c "." then splitext_scan p dotIndex (filenameIndex + 1) fuel'
            else (str_take (Z.to_nat dotIndex) p, str_drop (Z.to_nat dotIndex) p)
        | None => (p, "")
        end
      else (p, "")
  end.

Definition splitext (p : string) : string * string :=
  let sepIndex := rfind p "/" in
  let dotIndex := rfind p "." in
  if dotIndex >? sepIndex
  then splitext_scan p dotIndex (sepIndex + 1) (Z.to_nat (dotIndex - sepIndex))
  else (p, "").

(** ** [_file_storage_path] (lines 231-235)

    [sha1] and [filename] are the str-or-None values of the record
    fields.  [url[6:] + '/' + sha1] is evaluated first (a TypeError for
    None), then [os.path.splitext(filename)], whose first action on its
    argument is [p.rfind] (an AttributeError for None). *)
Definition _file_storage_path (url : string) (sha1 filename : option string)
  : result string :=
  if negb (startswith url "i4x://") then Raise AssertionError
  else
    match sha1 with
    | None => Raise TypeError
    | Some h =>
        let path := str_drop 6 url +:+ "/" +:+ h in
        match filename with
        | None => Raise (AttributeError "rfind")
        | Some f => Ok (path +:+ snd (splitext f))
        end
    end.

(** ** [hashlib.sha1]

    The digest of the Python standard library (FIPS 180-1), on 32-bit
    words kept in [Z].  A hash object accumulates what [update] feeds it;
    [hexdigest] is the lowercase hexadecimal digest of all of it. *)
Definition mask32 (x : Z) : Z := Z.land x 0xFFFFFFFF.

Definition rotl (n x : Z) : Z :=
  mask32 (Z.lor (Z.shiftl x n) (Z.shiftr x (32 - n))).

Definition be_bytes8 (x : Z) : list Z :=
  map (fun i => Z.land (Z.shiftr x (8 * i)) 0xFF) [7; 6; 5; 4; 3; 2; 1; 0].

Definition sha1_pad (msg : list Z) : list Z :=
  let len := Z.of_nat (length msg) in
  msg ++ [0x80] ++ repeat 0 (Z.to_nat ((55 - len) mod 64)) ++ be_bytes8 (8 * len).

Fixpoint be_words (bs : list Z) : list Z :=
  match bs with
  | a :: b :: c :: d :: rest =>
      Z.lor (Z.shiftl a 24) (Z.lor (Z.shiftl b 16) (Z.lor (Z.shiftl c 8) d))
      :: be_words rest
  | _ => []
  end.

Fixpoint sha1_schedule (n : nat) (w : list Z) : list Z :=
  match n with
  | O => w
  | S n' =>
      let i := length w in
      let x := Z.lxor (Z.lxor (nth (i - 3) w 0) (nth (i - 8) w 0))
                      (Z.lxor (nth (i - 14) w 0) (nth (i - 16) w 0)) in
      sha1_schedule n' (w ++ [rotl 1 x])
  end.

Definition sha1_state : Type := Z * Z * Z * Z * Z.

Definition sha1_round (st : sha1_state) (tw : Z * Z) : sha1_state :=
  let '(a, b, c, d, e) := st in
  let '(t, wt) := tw in
  let '(f, k) :=
    if t <? 20 then (Z.lor (Z.land b c) (Z.land (mask32 (Z.lnot b)) d), 0x5A827999)
    else if t <? 40 then (Z.lxor (Z.lxor b c) d, 0x6ED9EBA1)
    else if t <? 60 then
      (Z.lor (Z.lor (Z.land b c) (Z.land b d)) (Z.land c d), 0x8F1BBCDC)
    else (Z.lxor (Z.lxor b c) d, 0xCA62C1D6) in
  (mask32 (rotl 5 a + f + e + k + wt), a, rotl 30 b, c, d).

Definition sha1_block (h : sha1_state) (block : list Z) : sha1_state :=
  let w := sha1_schedule 64 (be_words block) in
  let ts := map Z.of_nat (seq 0 80) in
  let '(h0, h1, h2, h3, h4) := h in
  let '(a, b, c, d, e) := fold_left sha1_round (combine ts w) h in
  (mask32 (h0 + a), mask32 (h1 + b), mask32 (h2 + c), mask32 (h3 + d),
   mask32 (h4 + e)).

Fixpoint sha1_blocks (fuel : nat) (h : sha1_state) (bs : list Z) : sha1_state :=
  match fuel, bs with
  | S fuel', _ :: _ => sha1_blocks fuel' (sha1_block h (firstn 64 bs)) (skipn 64 bs)
  | _, _ => h
  end.

Definition hex_digit (n : Z) : ascii :=
  match String.get (Z.to_nat n) "0123456789abcdef" with
  | Some c => c
  | None => "0"%char
  end.

Definition hex8 (x : Z) : string :=
  string_of_list_ascii
    (map (fun i => hex_digit (Z.land (Z.shiftr x (4 * i)) 0xF)) [7; 6; 5; 4; 3; 2; 1; 0]).

Definition sha1_hexdigest (data : list byte) : string :=
  let padded := sha1_pad (map (fun b => Z.of_N (Byte.to_N b)) data) in
  let '(h0, h1, h2, h3, h4) :=
    sha1_blocks (length padded)
      (0x67452301, 0xEFCDAB89, 0x98BADCFE, 0x10325476, 0xC3D2E1F0) padded in
  hex8 h0 +:+ hex8 h1 +:+ hex8 h2 +:+ hex8 h3 +:+ hex8 h4.

(** The hash object: [hashlib.sha1()], [update], [hexdigest]. *)
Record Sha1 : Type := { fed : list byte }.
Definition sha1_new : Sha1 := {| fed := [] |}.
Definition sha1_update (h : Sha1) (block : list byte) : Sha1 :=
  {| fed := fed h ++ block |}.
Definition hexdigest (h : Sha1) : string := sha1_hexdigest (fed h).

(** ** File objects

    A readable file: its name, its bytes and the read position.
    [file.read(n)] returns at most [n] bytes from the position on and
    advances it; at the end it returns the empty string. *)
Record PyFile : Type := {
  file_name : string;
  file_content : list byte;
  file_pos : nat
}.

Definition file_read (n : nat) (f : PyFile) : list byte * PyFile :=
  let block := take n (drop (file_pos f) (file_content f)) in
  (block,
   {| file_name := file_name f;
      file_content := file_content f;
      file_pos := (file_pos f + length block)%nat |}).

Definition file_seek (f : PyFile) (offset : nat) : PyFile :=
  {| file_name := file_name f; file_content := file_content f; file_pos := offset |}.

Definition BLOCK_SIZE : nat := (2 ^ 10 * 8)%nat.

(** [iter(partial(file.read, n), '')] run to exhaustion: the blocks it
    yields and the file as the reads leave it.  Every block but the
    sentinel is non-empty, so [fuel] above the number of unread bytes is
    never used up. *)
Fixpoint iter_read (fuel n : nat) (f : PyFile) : list (list byte) * PyFile :=
  match fuel with
  | O => ([], f)
  | S fuel' =>
      let '(block, f') := file_read n f in
      match block with
      | [] => ([], f')
      | _ :: _ =>
          let '(blocks, f'') := iter_read fuel' n f' in
          (block :: blocks, f'')
      end
  end.

Definition read_fuel (f : PyFile) : nat := S (length (file_content f)).

(** ** [_get_sha1] (lines 238-244): the digest, and the file rewound. *)
Definition _get_sha1 (file : PyFile) : string * PyFile :=
  let '(blocks, file') := iter_read (read_fuel file) BLOCK_SIZE file in
  let sha1 := fold_left sha1_update blocks sha1_new in
  (hexdigest sha1, file_seek file' 0).

(** ** JSON values and responses *)
Inductive json : Type :=
| JNull
| JString (s : string)
| JObject (members : list (string * json)).

Definition json_of_str (v : option string) : json :=
  match v with
  | None => JNull
  | Some s => JString s
  end.

(** Every string that occurs in a JSON value, keys and values alike. *)
Fixpoint json_strings (j : json) : list string :=
  match j with
  | JNull => []
  | JString s => [s]
  | JObject members =>
      (fix members_strings (ms : list (string * json)) : list string :=
         match ms with
         | [] => []
         | (k, v) :: ms' => k :: json_strings v ++ members_strings ms'
         end) members
  end.

(** A webob Response as the handlers build it.  [content_type] is the
    media type that the response ends up with: the [content_type]
    argument when one is passed, else webob's default, which is
    text/html, or application/json when [json_body] is passed (the
    charset parameter that webob may add is left out). *)
Record Response : Type := {
  json_body : option json;
  app_iter : list (list byte);
  content_type : option string;
  content_disposition : option string
}.

(** ** The block instance and its surroundings

    [Block] holds what the handlers read of [self]: the location url,
    the staff flag of the runtime, the user id of [scope_ids], and the
    four user-state fields of the upload (None until set).  The settings
    fields and the score are not touched by the handlers below.  An
    assignment to a field acts on this object; when the runtime writes
    the object to its own store is outside this source. *)
Record Block : Type := {
  location_url : string;
  user_is_staff : bool;
  user_id : option string;
  uploaded_sha1 : option string;
  uploaded_filename : option string;
  uploaded_mimetype : option string;
  uploaded_timestamp : option Z
}.

Definition set_uploaded_sha1 (v : option string) (b : Block) : Block :=
  {| location_url := location_url b; user_is_staff := user_is_staff b;
     user_id := user_id b;
     uploaded_sha1 := v;
     uploaded_filename := uploaded_filename b;
     uploaded_mimetype := uploaded_mimetype b;
     uploaded_timestamp := uploaded_timestamp b |}.

Definition set_uploaded_filename (v : option string) (b : Block) : Block :=
  {| location_url := location_url b; user_is_staff := user_is_staff b;
     user_id := user_id b;
     uploaded_sha1 := uploaded_sha1 b;
     uploaded_filename := v;
     uploaded_mimetype := uploaded_mimetype b;
     uploaded_timestamp := uploaded_timestamp b |}.

Definition set_uploaded_mimetype (v : option string) (b : Block) : Block :=
  {| location_url := location_url b; user_is_staff := user_is_staff b;
     user_id := user_id b;
     uploaded_sha1 := uploaded_sha1 b;
     uploaded_filename := uploaded_filename b;
     uploaded_mimetype := v;
     uploaded_timestamp := uploaded_timestamp b |}.

Definition set_uploaded_timestamp (v : option Z) (b : Block) : Block :=
  {| location_url := location_url b; user_is_staff := user_is_staff b;
     user_id := user_id b;
     uploaded_sha1 := uploaded_sha1 b;
     uploaded_filename := uploaded_filename b;
     uploaded_mimetype := uploaded_mimetype b;
     uploaded_timestamp := v |}.

(** A row of the host's StudentModule table: the location it belongs to
    and its state, the JSON object of the student's fields, decoded. *)
Record StudentModule : Type := {
  module_state_key : string;
  module_state : gmap string (option string)
}.

(** What lies outside the block: the blob store behind
    [default_storage], the StudentModule table keyed by its integer
    primary key, and the instant that [datetime.utcnow()] reads
    (microseconds, UTC). *)
Record World : Type := {
  storage : gmap string (list byte);
  modules : gmap Z StudentModule;
  clock : Z
}.

(** A request parameter: a text value, or an uploaded file part (a
    FieldStorage, whose [file] attribute is the stream). *)
Inductive Param : Type :=
| Text (s : string)
| Upload (file : PyFile).

Record Request : Type := { params : gmap string Param }.

Definition params_get (request : Request) (key : string) : result Param :=
  match params request !! key with
  | Some p => Ok p
  | None => Raise (KeyError key)
  end.

Definition dict_get (d : gmap string (option string)) (key : string)
  : result (option string) :=
  match d !! key with
  | Some v => Ok v
  | None => Raise (KeyError key)
  end.

(** [default_storage.exists] and [default_storage.open]. *)
Definition storage_exists (st : gmap string (list byte)) (path : string) : bool :=
  bool_decide (is_Some (st !! path)).

Definition storage_open (st : gmap string (list byte)) (path : string)
  : result PyFile :=
  match st !! path with
  | Some data => Ok {| file_name := path; file_content := data; file_pos := 0 |}
  | None => Raise (IOError path)
  end.

Section Lookup.

(** Python's [int] on a text: the integer that the text denotes, None
    where [int] raises ValueError.  Django turns the value given for an
    integer primary key into the key with it. *)
Variable python_int : string -> option Z.

(** [StudentModule.objects.get(pk=...)]: the row whose primary key is
    the integer that the text denotes. *)
Definition StudentModule_get (table : gmap Z StudentModule) (pk : Param)
  : result StudentModule :=
  match pk with
  | Text t =>
      match python_int t with
      | Some k =>
          match table !! k with
          | Some m => Ok m
          | None => Raise DoesNotExist
          end
      | None => Raise ValueError
      end
  | Upload _ => Raise TypeError
  end.

End Lookup.

(** ** [_now] (line 253) *)
Definition _now (w : World) : Z := clock w.

(** ** [student_state] (lines 115-129) *)
Definition student_state (self : Block) : json :=
  let uploaded :=
    if truthy (uploaded_sha1 self)
    then JObject [("filename", json_of_str (uploaded_filename self))]
    else JNull in
  JObject [("uploaded", uploaded)].

(** ** [show_staff_grading_interface] (lines 225-228) *)
Definition show_staff_grading_interface (self : Block) : bool :=
  let is_course_staff := user_is_staff self in
  let in_studio_preview := bool_decide (user_id self = None) in
  is_course_staff && negb in_studio_preview.

(** ** [download] (lines 201-208)

    The blob is opened first; the Content-Disposition header is built
    when the Response is, and concatenating None is a TypeError. *)
Definition download (w : World) (path : string) (mimetype filename : option string)
  : result Response :=
  let* file := storage_open (storage w) path in
  let blocks := fst (iter_read (read_fuel file) BLOCK_SIZE file) in
  match filename with
  | None => Raise TypeError
  | Some fn =>
      Ok {| json_body := None;
            app_iter := blocks;
            content_type :=
              Some (match mimetype with Some t => t | None => "text/html" end);
            content_disposition := Some ("attachment; filename=" +:+ fn) |}
  end.

(** ** [download_assignment] (lines 193-199) *)
Definition download_assignment (self : Block) (w : World) (request : Request)
  : result Response :=
  let* path :=
    _file_storage_path (location_url self) (uploaded_sha1 self)
      (uploaded_filename self) in
  download w path (uploaded_mimetype self) (uploaded_filename self).

(** ** [staff_download] (lines 210-219)

    [python_int] is Python's [int], as for [StudentModule_get]. *)
Definition staff_download (python_int : string -> option Z) (self : Block)
           (w : World) (request : Request) : result Response :=
  let* module_id := params_get request "module_id" in
  let* module := StudentModule_get python_int (modules w) module_id in
  let state := module_state module in
  let* sha1 := dict_get state "uploaded_sha1" in
  let* filename := dict_get state "uploaded_filename" in
  let* path := _file_storage_path (module_state_key module) sha1 filename in
  let* mimetype := dict_get state "uploaded_mimetype" in
  let* filename' := dict_get state "uploaded_filename" in
  download w path mimetype filename'.

(** ** Attribute lookup on [self]

    The names bound in the body of the class (lines 37-228).  The base
    class XBlock is not part of this source; of its attributes the code
    uses [location], [xmodule_runtime] and [scope_ids]. *)
Definition class_attributes : list string :=
  ["has_score"; "icon_class"; "display_name"; "weight"; "points"; "score";
   "uploaded_sha1"; "uploaded_filename"; "uploaded_mimetype";
   "uploaded_timestamp"; "max_score"; "student_view"; "student_state";
   "staff_grading_data"; "studio_view"; "save_sga"; "upload_assignment";
   "download_assignment"; "download"; "staff_download";
   "get_staff_grading_data"; "show_staff_grading_interface"].

Definition inherited_attributes : list string :=
  ["location"; "xmodule_runtime"; "scope_ids"].

Definition has_attribute (name : string) : bool :=
  existsb (String.eqb name) (class_attributes ++ inherited_attributes).

Definition getattr_self (name : string) : result unit :=
  if has_attribute name then Ok tt else Raise (AttributeError name).

(** [default_storage.save(path, File(file))] as line 190 writes it, on
    Django's FileSystemStorage.  No local and no module global is named
    [file]: the name is Python 2's builtin type, not the uploaded
    stream.  The backend creates the file at the path, then asks the
    content for its chunks, and seeking in a type is a TypeError: an
    empty blob is left behind and the exception propagates.  The answer
    is the exception raised, if any, and the store afterwards. *)
Definition fs_save_File_file (st : gmap string (list byte)) (path : string)
  : option exn * gmap string (list byte) :=
  (Some TypeError, <[path := []]> st).

(** ** [upload_assignment] (lines 179-191), line by line *)

Inductive line : Type :=
| L181 | L182 | L183 | L184 | L185 | L186 | L187 | L189 | L190 | L191.

Definition line_number (l : line) : Z :=
  match l with
  | L181 => 181 | L182 => 182 | L183 => 183 | L184 => 184 | L185 => 185
  | L186 => 186 | L187 => 187 | L189 => 189 | L190 => 190 | L191 => 191
  end.

(** The state at a program point: [self], the world, and the locals
    [upload] and [path] (None while unassigned). *)
Record Frame : Type := {
  self : Block;
  world : World;
  upload : option Param;
  path : option string
}.

Inductive outcome : Type :=
| Next (l : line) (fr : Frame)
| Returned (r : Response) (fr : Frame)
| Raised (e : exn) (fr : Frame).

Definition frame_of (o : outcome) : Frame :=
  match o with
  | Next _ fr | Returned _ fr | Raised _ fr => fr
  end.

Definition with_self (b : Block) (fr : Frame) : Frame :=
  {| self := b; world := world fr; upload := upload fr; path := path fr |}.

(** [upload.file]. *)
Definition upload_file (fr : Frame) : result PyFile :=
  match upload fr with
  | None => Raise (NameError "upload")
  | Some (Text _) => Raise (AttributeError "file")
  | Some (Upload f) => Ok f
  end.

(** A str-or-None field as a set/unset flag. *)
Definition is_set {A : Type} (v : option A) : bool :=
  match v with Some _ => true | None => false end.

(** The record names a content hash for which the blob store has no
    blob at the record's path (or no path can be derived at all). *)
Definition references_unsaved_blob (b : Block) (st : gmap string (list byte))
  : bool :=
  is_set (uploaded_sha1 b) &&
  match _file_storage_path (location_url b) (uploaded_sha1 b) (uploaded_filename b)
  with
  | Ok p => negb (storage_exists st p)
  | Raise _ => true
  end.

(** A block as the runtime first hands it out: no upload field is set
    (the fields' defaults, lines 70-92). *)
Definition fresh_block (url : string) (staff : bool) (uid : option string) : Block :=
  {| location_url := url; user_is_staff := staff; user_id := uid;
     uploaded_sha1 := None; uploaded_filename := None;
     uploaded_mimetype := None; uploaded_timestamp := None |}.

(** A stand-in for [mimetypes.guess_type] with two entries of its table,
    for the concrete examples.  Like the library it answers (None, None)
    for a name whose extension it does not know. *)
Definition excerpt_guess_type (name : string) : option string * option string :=
  let ext := snd (splitext name) in
  if String.eqb ext ".pdf" then (Some "application/pdf", None)
  else if String.eqb ext ".txt" then (Some "text/plain", None)
  else (None, None).

Section Handlers.

(** [mimetypes.guess_type] of the Python standard library: for a file
    name, the pair (type, encoding), each possibly None. *)
Variable guess_type : string -> option string * option string.

(** What the storage backend behind [default_storage] does with the
    call [save(path, File(file))] of line 190: the exception it raises,
    if any, and the blob store it leaves. *)
Variable save_File_file :
  gmap string (list byte) -> string -> option exn * gmap string (list byte).

Definition exec (request : Request) (l : line) (fr : Frame) : outcome :=
  match l with
  | L181 =>  (* upload = request.params['assignment'] *)
      match params_get request "assignment" with
      | Ok p => Next L182 {| self := self fr; world := world fr;
                             upload := Some p; path := path fr |}
      | Raise e => Raised e fr
      end
  | L182 =>  (* self.uploaded_sha1 = _get_sha1(upload.file) *)
      match upload_file fr with
      | Ok f =>
          let '(sha1, f') := _get_sha1 f in
          Next L183 {| self := set_uploaded_sha1 (Some sha1) (self fr);
                       world := world fr;
                       upload := Some (Upload f'); path := path fr |}
      | Raise e => Raised e fr
      end
  | L183 =>  (* self.uploaded_filename = upload.file.name *)
      match upload_file fr with
      | Ok f => Next L184 (with_self (set_uploaded_filename (Some (file_name f)) (self fr)) fr)
      | Raise e => Raised e fr
      end
  | L184 =>  (* self.uploaded_mimetype = mimetypes.guess_type(upload.file.name)[0] *)
      match upload_file fr with
      | Ok f =>
          Next L185
            (with_self (set_uploaded_mimetype (fst (guess_type (file_name f))) (self fr)) fr)
      | Raise e => Raised e fr
      end
  | L185 =>  (* self.uploaded_timestamp = _now() *)
      Next L186 (with_self (set_uploaded_timestamp (Some (_now (world fr))) (self fr)) fr)
  | L186 =>  (* self.store_file(upload.file) *)
      match getattr_self "store_file" with
      | Ok _ => Next L187 fr
      | Raise e => Raised e fr
      end
  | L187 =>  (* path = _file_storage_path(self.location.url(), ...) *)
      match _file_storage_path (location_url (self fr)) (uploaded_sha1 (self fr))
              (uploaded_filename (self fr)) with
      | Ok p => Next L189 {| self := self fr; world := world fr;
                             upload := upload fr; path := Some p |}
      | Raise e => Raised e fr
      end
  | L189 =>  (* if not default_storage.exists(path): *)
      match path fr with
      | Some p =>
          if negb (storage_exists (storage (world fr)) p) then Next L190 fr
          else Next L191 fr
      | None => Raised (NameError "path") fr
      end
  | L190 =>  (* default_storage.save(path, File(file)) *)
      match path fr with
      | Some p =>
          let '(raised, st) := save_File_file (storage (world fr)) p in
          let fr' := {| self := self fr;
                        world := {| storage := st;
                                    modules := modules (world fr);
                                    clock := clock (world fr) |};
                        upload := upload fr; path := path fr |} in
          match raised with
          | None => Next L191 fr'
          | Some e => Raised e fr'
          end
      | None => Raised (NameError "path") fr
      end
  | L191 =>  (* return Response(json_body=self.student_state()) *)
      Returned {| json_body := Some (student_state (self fr)); app_iter := [];
                  content_type := Some "application/json";
                  content_disposition := None |} fr
  end.

(** Runs from line [l]; the trace lists the program points passed, each
    with the frame in which its line is about to execute. *)
Fixpoint run (fuel : nat) (request : Request) (l : line) (fr : Frame)
  : list (line * Frame) * outcome :=
  match fuel with
  | O => ([], Next l fr)
  | S fuel' =>
      match exec request l fr with
      | Next l' fr' =>
          let '(tr, out) := run fuel' request l' fr' in
          ((l, fr) :: tr, out)
      | out => ([(l, fr)], out)
      end
  end.

Definition entry_frame (b : Block) (w : World) : Frame :=
  {| self := b; world := w; upload := None; path := None |}.

(** The handler: ten lines, none of them a loop. *)
Definition upload_assignment (b : Block) (w : World) (request : Request)
  : list (line * Frame) * outcome :=
  run 10 request L181 (entry_frame b w).

(** The handlers a student's block serves, and the block a call leaves
    behind.  The two download handlers assign no field. *)
Inductive Call : Type :=
| CallUpload
| CallDownload
| CallStaffDownload.

Definition block_after (c : Call) (b : Block) (w : World) (request : Request)
  : Block :=
  match c with
  | CallUpload => self (frame_of (snd (upload_assignment b w request)))
  | CallDownload | CallStaffDownload => b
  end.

(** The states that the block object of a student can be in at the end
    of a handler call, each call starting on the object as the call
    before left it, as though every assignment were kept even when the
    handler raises.  The states that the runtime stores are among
    them. *)
Inductive reachable : Block -> Prop :=
| reach_fresh url staff uid : reachable (fresh_block url staff uid)
| reach_call c b w request :
    reachable b -> reachable (block_after c b w request).



(** The record as lines 182-185 leave it for the uploaded file [f]. *)
Definition recorded (b : Block) (w : World) (f : PyFile) : Block :=
  set_uploaded_timestamp (Some (_now w))
    (set_uploaded_mimetype (fst (guess_type (file_name f)))
       (set_uploaded_filename (Some (file_name f))
          (set_uploaded_sha1
             (Some (sha1_hexdigest (drop (file_pos f) (file_content f)))) b))).

(** The frame in which each of the lines 181-186 finds an upload of [f]. *)
Definition frame_at (b : Block) (w : World) (f : PyFile) (l : line) : Frame :=
  let local := {| self := b; world := w;
                  upload := Some (Upload (file_seek f 0)); path := None |} in
  let b1 := set_uploaded_sha1
              (Some (sha1_hexdigest (drop (file_pos f) (file_content f)))) b in
  let b2 := set_uploaded_filename (Some (file_name f)) b1 in
  let b3 := set_uploaded_mimetype (fst (guess_type (file_name f))) b2 in
  match l with
  | L181 => entry_frame b w
  | L182 => {| self := b; world := w; upload := Some (Upload f); path := None |}
  | L183 => with_self b1 local
  | L184 => with_self b2 local
  | L185 => with_self b3 local
  | _ => with_self (recorded b w f) local
  end.

End Handlers.

(** ** The digest as text *)

Definition is_hex_char (c : ascii) : bool :=
  existsb (Ascii.eqb c) (list_ascii_of_string "0123456789abcdef").

Fixpoint str_forall (p : ascii -> bool) (s : string) : bool :=
  match s with
  | EmptyString => true
  | String c s' => p c && str_forall p s'
  end.

(** ** [staff_grading_data] (lines 131-149)

    A row of the StudentModule table with the columns that the grading
    query reads: the integer primary key, the course, the student's
    user name and profile name, and the module of [staff_download].
    State values that are numbers or dates stand as the text of their
    JSON scalar. *)
Record StudentRow : Type := {
  row_id : Z;
  row_course_id : string;
  row_username : string;
  row_fullname : string;
  row_module : StudentModule
}.

(** [state.get(key)]: None for a missing key. *)
Definition dict_get_or_none (d : gmap string (option string)) (key : string)
  : option string :=
  match d !! key with
  | Some v => v
  | None => None
  end.

(** The dict that [get_student_data] returns (lines 134-141). *)
Record GradingEntry : Type := {
  entry_module_id : Z;
  entry_username : string;
  entry_fullname : string;
  entry_filename : option string;
  entry_timestamp : option string;
  entry_score : option string
}.

Definition get_student_data (module : StudentRow) : GradingEntry :=
  let state := module_state (row_module module) in
  {| entry_module_id := row_id module;
     entry_username := row_username module;
     entry_fullname := row_fullname module;
     entry_filename := dict_get_or_none state "uploaded_filename";
     entry_timestamp := dict_get_or_none state "uploaded_timestamp";
     entry_score := dict_get_or_none state "score" |}.

(** [StudentModule.objects.filter(course_id=..., module_state_key=...)]:
    the rows of the table that match, in the table's order. *)
Definition query_filter (course_id module_state_key' : string)
           (table : list StudentRow) : list StudentRow :=
  List.filter
    (fun row => String.eqb (row_course_id row) course_id &&
                String.eqb (module_state_key (row_module row)) module_state_key')
    table.

Record GradingData : Type := { assignments : list GradingEntry }.

(** [course_id] is [self.xmodule_runtime.course_id]. *)
Definition staff_grading_data (self : Block) (course_id : string)
           (table : list StudentRow) : GradingData :=
  let query := query_filter course_id (location_url self) table in
  {| assignments := map get_student_data query |}.

(** The table as [StudentModule.objects.get(pk=...)] looks it up. *)
Definition modules_of (table : list StudentRow) : gmap Z StudentModule :=
  list_to_map (map (fun row => (row_id row, row_module row)) table).

(** ** [save_sga] (lines 174-177) and [max_score] (lines 94-95)

    The three settings fields of the block, holding Python values of
    any kind: the handler stores what the request's JSON object gives
    it, as it is. *)
Record Settings (PyVal : Type) : Type := {
  display_name : PyVal;
  points : PyVal;
  weight : PyVal
}.
Arguments display_name {PyVal} _.
Arguments points {PyVal} _.
Arguments weight {PyVal} _.

Inductive setting_name : Type := DisplayName | Points | Weight.

Definition setting_key (n : setting_name) : string :=
  match n with
  | DisplayName => "display_name"
  | Points => "points"
  | Weight => "weight"
  end.

Definition getattr_setting {PyVal : Type} (n : setting_name) (s : Settings PyVal)
  : PyVal :=
  match n with
  | DisplayName => display_name s
  | Points => points s
  | Weight => weight s
  end.

Definition setattr_setting {PyVal : Type} (n : setting_name) (v : PyVal)
           (s : Settings PyVal) : Settings PyVal :=
  match n with
  | DisplayName => {| display_name := v; points := points s; weight := weight s |}
  | Points => {| display_name := display_name s; points := v; weight := weight s |}
  | Weight => {| display_name := display_name s; points := points s; weight := v |}
  end.

(** [data.get(name, default)]. *)
Definition data_get {PyVal : Type} (data : gmap string PyVal) (key : string)
           (default : PyVal) : PyVal :=
  match data !! key with
  | Some v => v
  | None => default
  end.

(** The loop of lines 176-177 over the three names. *)
Definition save_sga {PyVal : Type} (data : gmap string PyVal) (s : Settings PyVal)
  : Settings PyVal :=
  fold_left
    (fun s name =>
       setattr_setting name (data_get data (setting_key name) (getattr_setting name s)) s)
    [DisplayName; Points; Weight] s.

Definition max_score {PyVal : Type} (s : Settings PyVal) : PyVal := points s.

(** Concrete inputs for the examples: an assignment location, two
    uploaded files, the request that carries a file in its [assignment]
    field, and a world with an empty blob store. *)
Definition hw1_url : string := "i4x://org/course/sga/hw1".

Definition report_pdf : PyFile :=
  {| file_name := "report.pdf";
     file_content := list_byte_of_string "seventeen bytes!!";
     file_pos := 0 |}.

Definition readme : PyFile :=
  {| file_name := "README";
     file_content := list_byte_of_string "read me";
     file_pos := 0 |}.

Definition upload_request (f : PyFile) : Request :=
  {| params := {[ "assignment" := Upload f ]} |}.

Definition empty_world : World :=
  {| storage := ∅; modules := ∅; clock := 1400000000000000 |}.

(** A student who is not staff, and a world in which student 7 has a
    stored submission. *)
Definition student_block : Block := fresh_block hw1_url false (Some "student").

Definition submitted_module : StudentModule :=
  {| module_state_key := hw1_url;
     module_state :=
       {[ "uploaded_sha1" := Some "abc";
          "uploaded_filename" := Some "report.pdf";
          "uploaded_mimetype" := Some "application/pdf" ]} |}.

Definition submitted_world : World :=
  {| storage := {[ "org/course/sga/hw1/abc.pdf" := file_content report_pdf ]};
     modules := {[ 7 := submitted_module ]};
     clock := 1400000000000000 |}.

Definition staff_download_request : Request :=
  {| params := {[ "module_id" := Text "7" ]} |}.

Definition other_student_block : Block :=
  fresh_block hw1_url false (Some "student_b").

Definition unknown_module_request : Request :=
  {| params := {[ "module_id" := Text "9" ]} |}.

Definition no_params : Request := {| params := ∅ |}.

(** The record that mirrors the stored submission of student 7, and a
    StudentModule table: student 7 with that submission, student 8 of
    the same assignment without an upload, and a row of another course. *)
Definition submitted_block : Block :=
  {| location_url := hw1_url; user_is_staff := false; user_id := Some "student7";
     uploaded_sha1 := Some "abc"; uploaded_filename := Some "report.pdf";
     uploaded_mimetype := Some "application/pdf";
     uploaded_timestamp := Some 1400000000000000 |}.

Definition grading_table : list StudentRow :=
  [ {| row_id := 7; row_course_id := "org/course/run"; row_username := "ann";
       row_fullname := "Ann Lee"; row_module := submitted_module |};
    {| row_id := 8; row_course_id := "org/course/run"; row_username := "bob";
       row_fullname := "Bob Roy";
       row_module := {| module_state_key := hw1_url; module_state := ∅ |} |};
    {| row_id := 9; row_course_id := "org/other/run"; row_username := "cy";
       row_fullname := "Cy Young"; row_module := submitted_module |} ].

Definition grading_world : World :=
  {| storage := storage submitted_world;
     modules := modules_of grading_table;
     clock := 1400000000000000 |}.

(** A stand-in for Python's [int] on the texts made of decimal digits,
    leading zeros included, for the concrete examples; any other text
    is refused, as [int] refuses a text without digits. *)
Fixpoint decimal_value (acc : Z) (s : string) : option Z :=
  match s with
  | EmptyString => Some acc
  | String c s' =>
      let d := Z.of_nat (nat_of_ascii c) - 48 in
      if (0 <=? d) && (d <=? 9) then decimal_value (10 * acc + d) s' else None
  end.

Definition decimal_int (s : string) : option Z :=
  match s with
  | EmptyString => None
  | String _ _ => decimal_value 0 s
  end.

Definition padded_module_request : Request :=
  {| params := {[ "module_id" := Text "07" ]} |}.

Definition text_module_request : Request :=
  {| params := {[ "module_id" := Text "abc" ]} |}.

(** The record of student A after an earlier upload of another file. *)
Definition resubmitting_block : Block :=
  {| location_url := hw1_url; user_is_staff := false; user_id := Some "student";
     uploaded_sha1 := Some "da39a3ee5e6b4b0d3255bfef95601890afd80709";
     uploaded_filename := Some "draft.txt";
     uploaded_mimetype := Some "text/plain";
     uploaded_timestamp := Some 1300000000000000 |}.

(** * Properties *)

(** ** The library models on known values *)

(** [os.path.splitext] on names with and without an extension. *)
Example splitext_pdf : splitext "report.pdf" = ("report", ".pdf").
Proof. reflexivity. Qed.
Example splitext_none : splitext "README" = ("README", "").
Proof. reflexivity. Qed.
Example splitext_hidden : splitext ".bashrc" = (".bashrc", "").
Proof. reflexivity. Qed.
Example splitext_dir : splitext "a.b/c" = ("a.b/c", "").
Proof. reflexivity. Qed.
Example splitext_two : splitext "x.tar.gz" = ("x.tar", ".gz").
Proof. reflexivity. Qed.
Example splitext_dots : splitext "a/..b.c" = ("a/..b", ".c").
Proof. reflexivity. Qed.
Example path_ex :
  _file_storage_path "i4x://org/course/sga/hw1" (Some "abc") (Some "report.pdf")
  = Ok "org/course/sga/hw1/abc.pdf".
Proof. reflexivity. Qed.

(** [hashlib.sha1] on the test vectors of FIPS 180-1. *)
Example sha1_empty :
  sha1_hexdigest [] = "da39a3ee5e6b4b0d3255bfef95601890afd80709".
Proof. vm_compute. reflexivity. Qed.
Example sha1_abc :
  sha1_hexdigest (list_byte_of_string "abc")
  = "a9993e364706816aba3e25717850c26c9cd0d89d".
Proof. vm_compute. reflexivity. Qed.
Example sha1_two_blocks :
  sha1_hexdigest
    (list_byte_of_string "abcdbcdecdefdefgefghfghighijhijkijkljklmklmnlmnomnopnopq")
  = "84983e441c3bd26ebaae4aa1f95129e5e54670f1".
Proof. vm_compute. reflexivity. Qed.


(** ** Strings and [splitext] *)

Lemma append_empty_r (s : string) : s +:+ "" = s.
Proof.
  induction s as [|c s IH]; [reflexivity |].
  change (String c (s +:+ "") = String c s). now rewrite IH.
Qed.

Lemma append_assoc (a b c : string) : (a +:+ b) +:+ c = a +:+ (b +:+ c).
Proof.
  induction a as [|x a IH]; [reflexivity |].
  change (String x ((a +:+ b) +:+ c) = String x (a +:+ (b +:+ c))).
  now rewrite IH.
Qed.

Lemma str_forall_app (p : ascii -> bool) (a b : string) :
  str_forall p (a +:+ b) = str_forall p a && str_forall p b.
Proof.
  induction a as [|c a IH]; [reflexivity |].
  change (p c && str_forall p (a +:+ b) = p c && str_forall p a && str_forall p b).
  rewrite IH. now destruct (p c).
Qed.

Lemma str_take_drop (n : nat) (s : string) : str_take n s +:+ str_drop n s = s.
Proof.
  revert s; induction n as [|n IH]; intros [|c s]; try reflexivity.
  change (String c (str_take n s +:+ str_drop n s) = String c s).
  now rewrite IH.
Qed.

Lemma str_drop_get (n : nat) (s : string) (c : ascii) :
  String.get n s = Some c -> exists t, str_drop n s = String c t.
Proof.
  revert s; induction n as [|n IH]; intros [|a s]; simpl; try discriminate.
  - intros [= ->]. now exists s.
  - apply IH.
Qed.

(** [rfind_from] either keeps [last] or answers an index at or after [i]
    at which the character stands. *)
Lemma rfind_from_spec (c : ascii) (s : string) (i last : Z) :
  rfind_from c s i last = last \/
  (i <= rfind_from c s i last /\
   String.get (Z.to_nat (rfind_from c s i last - i)) s = Some c).
Proof.
  revert i last; induction s as [|a s IH]; intros i last; simpl.
  - now left.
  - destruct (IH (i + 1) (if Ascii.eqb a c then i else last)) as [H | [Hle Hget]].
    + rewrite H. destruct (Ascii.eqb_spec a c) as [-> | _]; [right | now left].
      split; [lia |]. now replace (i - i) with 0 by lia.
    + right. split; [lia |].
      set (r := rfind_from c s (i + 1) _) in *.
      replace (Z.to_nat (r - i)) with (S (Z.to_nat (r - (i + 1)))) by lia.
      exact Hget.
Qed.

Lemma rfind_bounds (s : string) (c : ascii) : -1 <= rfind s c.
Proof.
  unfold rfind. destruct (rfind_from_spec c s 0 (-1)) as [-> | [H _]]; lia.
Qed.

Lemma rfind_get (s : string) (c : ascii) :
  0 <= rfind s c -> String.get (Z.to_nat (rfind s c)) s = Some c.
Proof.
  unfold rfind. intros H.
  destruct (rfind_from_spec c s 0 (-1)) as [E | [_ Hget]]; [lia |].
  now rewrite Z.sub_0_r in Hget.
Qed.

Lemma splitext_scan_cases (p : string) (d i : Z) (fuel : nat) :
  splitext_scan p d i fuel = (p, "") \/
  splitext_scan p d i fuel = (str_take (Z.to_nat d) p, str_drop (Z.to_nat d) p).
Proof.
  revert i; induction fuel as [|fuel IH]; intros i; simpl; [now left |].
  destruct (i <? d); [| now left].
  destruct (char_at p i) as [c |]; [| now left].
  destruct (Ascii.eqb c "."); [apply IH | now right].
Qed.

Lemma splitext_cases (p : string) :
  splitext p = (p, "") \/
  (0 <= rfind p "." /\
   splitext p = (str_take (Z.to_nat (rfind p ".")) p,
                 str_drop (Z.to_nat (rfind p ".")) p)).
Proof.
  unfold splitext.
  destruct (Z.gtb_spec (rfind p ".") (rfind p "/")) as [Hgt | _]; [| now left].
  destruct (splitext_scan_cases p (rfind p ".") (rfind p "/" + 1)
              (Z.to_nat (rfind p "." - rfind p "/"))) as [-> | ->];
    [now left | right].
  split; [| reflexivity]. pose proof (rfind_bounds p "/"). lia.
Qed.

(** The two halves of [splitext] make up the name again. *)
Lemma splitext_concat (p : string) : fst (splitext p) +:+ snd (splitext p) = p.
Proof.
  destruct (splitext_cases p) as [-> | [_ ->]]; simpl.
  - apply append_empty_r.
  - apply str_take_drop.
Qed.

(** [rfind_from] with any start index and default, from [rfind]. *)
Lemma rfind_from_rfind (c : ascii) (s : string) (i last : Z) :
  rfind_from c s i last
  = if rfind s c =? -1 then last else i + rfind s c.
Proof.
  unfold rfind. revert i last; induction s as [|a s IH]; intros i last.
  - reflexivity.
  - cbn [rfind_from]. rewrite (IH (i + 1)), (IH (0 + 1)).
    pose proof (rfind_bounds s c) as Hb. unfold rfind in Hb.
    destruct (Z.eqb_spec (rfind_from c s 0 (-1)) (-1)) as [E | E].
    + destruct (Ascii.eqb a c); [| reflexivity].
      cbn. lia.
    + destruct (Z.eqb_spec (0 + 1 + rfind_from c s 0 (-1)) (-1)); lia.
Qed.

Lemma rfind_cons (a c : ascii) (s : string) :
  rfind (String a s) c
  = if rfind s c =? -1 then (if Ascii.eqb a c then 0 else -1) else 1 + rfind s c.
Proof.
  unfold rfind at 1. cbn [rfind_from]. rewrite rfind_from_rfind.
  now replace (0 + 1) with 1 by lia.
Qed.

(** [rfind] on [s[n:]]: the last occurrence moves by [n], or is cut off. *)
Lemma rfind_drop (c : ascii) (n : nat) (s : string) :
  (Z.of_nat n <= rfind s c -> rfind (str_drop n s) c = rfind s c - Z.of_nat n) /\
  (rfind s c < Z.of_nat n -> rfind (str_drop n s) c = -1).
Proof.
  revert s; induction n as [|n IH]; intros s.
  - cbn [str_drop]. pose proof (rfind_bounds s c). split; intros; lia.
  - destruct s as [|a s]; cbn [str_drop].
    + split; intros H; [cbn in H; lia | reflexivity].
    + destruct (IH s) as [IH1 IH2]. rewrite rfind_cons.
      pose proof (rfind_bounds s c).
      destruct (Z.eqb_spec (rfind s c) (-1)) as [E | E].
      * split; intros H1.
        -- destruct (Ascii.eqb a c); lia.
        -- apply IH2. lia.
      * split; intros H1; [rewrite IH1 | apply IH2]; lia.
Qed.

(** The extension is empty, or it is a dot followed by characters among
    which there is neither a dot nor a separator. *)
Lemma splitext_ext_shape (p : string) :
  snd (splitext p) = "" \/
  exists t, snd (splitext p) = String "." t /\ rfind t "." = -1 /\ rfind t "/" = -1.
Proof.
  destruct (splitext_cases p) as [E | [Hge E]]; [left; now rewrite E | right].
  assert (Hsep : rfind p "/" < rfind p ".").
  { unfold splitext in E.
    destruct (Z.gtb_spec (rfind p ".") (rfind p "/")) as [Hgt | Hle]; [lia |].
    exfalso. injection E as E1 E2.
    destruct (str_drop_get _ _ _ (rfind_get p "." Hge)) as [t Ht].
    rewrite Ht in E2. discriminate. }
  rewrite E. cbn [snd].
  destruct (str_drop_get _ _ _ (rfind_get p "." Hge)) as [t Ht].
  exists t. split; [exact Ht |].
  destruct (rfind_drop "." (Z.to_nat (rfind p ".")) p) as [Hdot _].
  destruct (rfind_drop "/" (Z.to_nat (rfind p ".")) p) as [_ Hslash].
  rewrite Ht in Hdot, Hslash. rewrite rfind_cons in Hdot, Hslash.
  pose proof (rfind_bounds t ".") as Hb1. pose proof (rfind_bounds t "/") as Hb2.
  split.
  - destruct (Z.eqb_spec (rfind t ".") (-1)) as [Et | Et]; [exact Et |].
    specialize (Hdot ltac:(lia)). lia.
  - destruct (Z.eqb_spec (rfind t "/") (-1)) as [Et | Et]; [exact Et |].
    specialize (Hslash ltac:(lia)). lia.
Qed.

(** ** Reading a file in blocks *)

Lemma take_drop_length {A : Type} (n : nat) (l : list A) :
  drop (length (take n l)) l = drop n l.
Proof.
  destruct (Nat.le_gt_cases n (length l)) as [H | H].
  - now rewrite length_take, Nat.min_l.
  - rewrite take_ge by lia. now rewrite !drop_ge by lia.
Qed.

(** With fuel above the number of unread bytes, the blocks read make up
    exactly the unread bytes, and name and content are as before. *)
Lemma iter_read_spec (n : nat) (fuel : nat) (f : PyFile) :
  (0 < n)%nat ->
  (length (drop (file_pos f) (file_content f)) < fuel)%nat ->
  concat (fst (iter_read fuel n f)) = drop (file_pos f) (file_content f) /\
  file_name (snd (iter_read fuel n f)) = file_name f /\
  file_content (snd (iter_read fuel n f)) = file_content f.
Proof.
  intros Hn. revert f. induction fuel as [|fuel IH]; intros f Hfuel; [lia |].
  cbn [iter_read file_read].
  set (rest := drop (file_pos f) (file_content f)) in *.
  destruct (take n rest) as [|x block] eqn:Eblock.
  - cbn. split; [| auto].
    destruct rest as [|y rest']; [reflexivity |].
    destruct n; [lia | discriminate].
  - set (f' := {| file_name := file_name f; file_content := file_content f;
                  file_pos := (file_pos f + length (x :: block))%nat |}).
    assert (Hrest' : drop (file_pos f') (file_content f') = drop n rest).
    { subst f' rest. cbn [file_pos file_content].
      rewrite <- Eblock, <- drop_drop.
      apply take_drop_length. }
    destruct (IH f') as (Hc & Hname & Hcont).
    { rewrite Hrest', length_drop.
      assert (length (take n rest) <> 0)%nat by (rewrite Eblock; discriminate).
      rewrite length_take in H. lia. }
    destruct (iter_read fuel n f') as [blocks f''] eqn:E.
    cbn [fst snd concat] in *. rewrite Hc, Hrest', <- Eblock.
    split; [apply take_drop | auto].
Qed.

Lemma fold_sha1_update (blocks : list (list byte)) (h : Sha1) :
  fold_left sha1_update blocks h = {| fed := fed h ++ concat blocks |}.
Proof.
  revert h; induction blocks as [|b blocks IH]; intros h; cbn [fold_left concat].
  - rewrite app_nil_r. now destruct h.
  - rewrite IH. cbn [sha1_update fed]. now rewrite app_assoc.
Qed.

Lemma BLOCK_SIZE_pos : (0 < BLOCK_SIZE)%nat.
Proof. apply Nat.ltb_lt. vm_compute. reflexivity. Qed.

(** [_get_sha1] returns the digest of the unread bytes, whatever the
    block size cuts them into, and leaves the file at position 0. *)
Lemma get_sha1_spec (f : PyFile) :
  _get_sha1 f
  = (sha1_hexdigest (drop (file_pos f) (file_content f)), file_seek f 0).
Proof.
  unfold _get_sha1.
  destruct (iter_read_spec BLOCK_SIZE (read_fuel f) f BLOCK_SIZE_pos)
    as (Hc & Hname & Hcont).
  { unfold read_fuel. rewrite length_drop. lia. }
  destruct (iter_read (read_fuel f) BLOCK_SIZE f) as [blocks f'].
  cbn [fst snd] in *. rewrite fold_sha1_update. cbn [fed sha1_new app].
  unfold hexdigest, file_seek. cbn [fed]. now rewrite Hc, Hname, Hcont.
Qed.

(** ** The storage path *)

(** C9 (as amended).  For a url that starts with "i4x://" and any
    content hash and file name, [_file_storage_path] returns the url
    without its six-character scheme prefix, then "/", the hash and the
    extension of the file name, which is what [splitext] cuts off the
    end of the name: nothing, or a dot followed by characters that are
    neither dots nor separators.  For
    any other url, the empty one included, it fails with AssertionError,
    the code's invalid-scope failure. *)
Theorem C9_file_storage_path (url h f : string) :
  (startswith url "i4x://" = true ->
   _file_storage_path url (Some h) (Some f)
   = Ok (str_drop 6 url +:+ "/" +:+ h +:+ snd (splitext f)) /\
   (snd (splitext f) = "" \/
    exists t, snd (splitext f) = String "." t /\
              rfind t "." = -1 /\ rfind t "/" = -1) /\
   fst (splitext f) +:+ snd (splitext f) = f) /\
  (startswith url "i4x://" = false ->
   _file_storage_path url (Some h) (Some f) = Raise AssertionError /\
   fails_with (_file_storage_path url (Some h) (Some f)) InvalidScopeError).
Proof.
  unfold _file_storage_path. split; intros ->; cbn [negb].
  - split; [| split].
    + now rewrite !append_assoc.
    + apply splitext_ext_shape.
    + apply splitext_concat.
  - split; [reflexivity |]. now exists AssertionError.
Qed.

(** ** The student-facing projection *)

(** A storage path has a separator in it, so it is neither of the two
    keys of the projection. *)
Lemma storage_path_not_a_key (url : string) (sha1 filename : option string)
      (p : string) :
  _file_storage_path url sha1 filename = Ok p -> p <> "uploaded" /\ p <> "filename".
Proof.
  unfold _file_storage_path.
  destruct (negb (startswith url "i4x://")); [discriminate |].
  destruct sha1 as [h |]; [| discriminate].
  destruct filename as [f |]; [| discriminate].
  intros [= Hp].
  assert (H : str_forall (fun c => negb (Ascii.eqb c "/")) p = false).
  { rewrite <- Hp, !str_forall_app.
    change (str_forall (fun c => negb (Ascii.eqb c "/")) "/") with false.
    cbn [andb]. now rewrite andb_false_r. }
  split; intros E; rewrite E in H; discriminate.
Qed.

(** C10.  [student_state] is {uploaded: null} when the content hash is
    unset or empty, and {uploaded: {filename: name}} with the record's
    file name when the hash is set.  No string other than the two keys
    and the file name occurs in it: the content hash and the storage
    path do not, unless the file name itself is that very text; and it
    is the same for any two records that agree on the file name and on
    whether a hash is set. *)
Theorem C10_student_state_projection (b : Block) :
  (uploaded_sha1 b = None \/ uploaded_sha1 b = Some "" ->
   student_state b = JObject [("uploaded", JNull)]) /\
  (forall h name,
     uploaded_sha1 b = Some h -> h <> "" -> uploaded_filename b = Some name ->
     student_state b
     = JObject [("uploaded", JObject [("filename", JString name)])]) /\
  (forall h,
     uploaded_sha1 b = Some h -> h <> "" -> uploaded_filename b = None ->
     student_state b = JObject [("uploaded", JObject [("filename", JNull)])]) /\
  (forall s, In s (json_strings (student_state b)) ->
             s = "uploaded" \/ s = "filename" \/ uploaded_filename b = Some s) /\
  (forall h, uploaded_sha1 b = Some h -> uploaded_filename b <> Some h ->
             h <> "uploaded" -> h <> "filename" ->
             ~ In h (json_strings (student_state b))) /\
  (forall p,
     _file_storage_path (location_url b) (uploaded_sha1 b) (uploaded_filename b)
     = Ok p ->
     uploaded_filename b <> Some p ->
     ~ In p (json_strings (student_state b))) /\
  (forall b',
     uploaded_filename b' = uploaded_filename b ->
     (uploaded_sha1 b' = None \/ uploaded_sha1 b' = Some "" <->
      uploaded_sha1 b = None \/ uploaded_sha1 b = Some "") ->
     student_state b' = student_state b).
Proof.
  assert (Hstr : forall s, In s (json_strings (student_state b)) ->
                   s = "uploaded" \/ s = "filename" \/ uploaded_filename b = Some s).
  { intros s. unfold student_state. destruct (truthy (uploaded_sha1 b)); cbn.
    - destruct (uploaded_filename b) as [fn |]; cbn; intuition congruence.
    - intuition congruence. }
  assert (Hempty : forall v, truthy v = false <-> v = None \/ v = Some "").
  { intros [[| c s] |]; cbn; split; intros H; try reflexivity; try discriminate;
      auto; destruct H as [H | H]; discriminate. }
  split; [| split; [| split; [| split; [| split; [| split]]]]].
  - intros H. unfold student_state. now rewrite (proj2 (Hempty _) H).
  - intros h name Hh Hne Hn. unfold student_state. rewrite Hh, Hn.
    destruct h; [now destruct Hne | reflexivity].
  - intros h Hh Hne Hn. unfold student_state. rewrite Hh, Hn.
    destruct h; [now destruct Hne | reflexivity].
  - exact Hstr.
  - intros h _ Hf H1 H2 Hin.
    destruct (Hstr h Hin) as [E | [E | E]]; congruence.
  - intros p Hp Hf Hin. destruct (storage_path_not_a_key _ _ _ _ Hp) as [H1 H2].
    destruct (Hstr p Hin) as [E | [E | E]]; congruence.
  - intros b' Hfn Hs. unfold student_state. rewrite Hfn.
    destruct (truthy (uploaded_sha1 b)) eqn:E, (truthy (uploaded_sha1 b')) eqn:E';
      try reflexivity.
    + apply Hempty, Hs, Hempty in E'. congruence.
    + apply Hempty, Hs, Hempty in E. congruence.
Qed.

(** ** Download *)

(** Opening a stored blob and streaming it out yields its bytes, in
    blocks, with the file name in the disposition. *)
Lemma download_stored (w : World) (p : string) (data : list byte)
      (mimetype : option string) (fn : string) :
  storage w !! p = Some data ->
  exists resp, download w p mimetype (Some fn) = Ok resp /\
               concat (app_iter resp) = data /\
               content_type resp
               = Some (match mimetype with Some t => t | None => "text/html" end) /\
               content_disposition resp = Some ("attachment; filename=" +:+ fn).
Proof.
  intros Hp. unfold download, storage_open. rewrite Hp. cbn [bind].
  eexists; split; [reflexivity |]. cbn [app_iter content_type content_disposition].
  split; [| auto].
  set (f := {| file_name := p; file_content := data; file_pos := 0 |}).
  destruct (iter_read_spec BLOCK_SIZE (read_fuel f) f BLOCK_SIZE_pos) as (Hc & _).
  { unfold read_fuel. rewrite length_drop. lia. }
  exact Hc.
Qed.

Lemma download_missing (w : World) (p : string) (mimetype filename : option string) :
  storage w !! p = None -> download w p mimetype filename = Raise (IOError p).
Proof. intros Hp. unfold download, storage_open. now rewrite Hp. Qed.

Lemma never_NoSubmissionError {A : Type} (r : result A) :
  ~ fails_with r NoSubmissionError.
Proof. intros (e & _ & He). destruct e; discriminate. Qed.

Lemma never_AuthorizationError {A : Type} (r : result A) :
  ~ fails_with r AuthorizationError.
Proof. intros (e & _ & He). destruct e; discriminate. Qed.

(** C5 (as amended).  For a record whose content hash is unset, a
    self-download fails: with the TypeError of the path derivation, or
    with AssertionError when the location is no i4x url; never with a
    NoSubmissionError, which the code does not have.  A record whose
    hash is the empty string is not refused as such: the download goes
    on to the path made of the scope and the extension alone. *)
Theorem C5_download_without_hash (b : Block) (w : World) (request : Request) :
  (uploaded_sha1 b = None ->
   download_assignment b w request
   = Raise (if startswith (location_url b) "i4x://" then TypeError
            else AssertionError) /\
   is_ok (download_assignment b w request) = false /\
   ~ fails_with (download_assignment b w request) NoSubmissionError) /\
  (forall fn, uploaded_sha1 b = Some "" ->
              uploaded_filename b = Some fn ->
              startswith (location_url b) "i4x://" = true ->
   download_assignment b w request
   = download w (str_drop 6 (location_url b) +:+ "/" +:+ snd (splitext fn))
       (uploaded_mimetype b) (Some fn)).
Proof.
  unfold download_assignment, _file_storage_path. split.
  - intros ->. split; [| split].
    + now destruct (startswith (location_url b) "i4x://").
    + now destruct (startswith (location_url b) "i4x://").
    + apply never_NoSubmissionError.
  - intros fn -> -> ->. cbn [negb bind].
    now rewrite !append_assoc.
Qed.

(** C2 (as amended).  [staff_download] checks no authorization: its
    result is the same whoever the caller is, staff or not.  A request
    whose module_id denotes an integer that is the key of no
    StudentModule row fails with DoesNotExist, the not-found failure;
    one whose module_id denotes no integer fails with ValueError. *)
Theorem C2_staff_download (python_int : string -> option Z) (b : Block) (w : World)
        (request : Request) :
  (forall b', staff_download python_int b' w request
              = staff_download python_int b w request) /\
  (forall t k, params request !! "module_id" = Some (Text t) ->
               python_int t = Some k ->
               modules w !! k = None ->
               staff_download python_int b w request = Raise DoesNotExist /\
               fails_with (staff_download python_int b w request) NotFoundError) /\
  (forall t, params request !! "module_id" = Some (Text t) ->
             python_int t = None ->
             staff_download python_int b w request = Raise ValueError).
Proof.
  split; [reflexivity |]. split.
  - intros t k Ht Hk Hm. unfold staff_download, params_get. rewrite Ht.
    cbn [bind StudentModule_get]. rewrite Hk, Hm. cbn [bind].
    split; [reflexivity |]. now exists DoesNotExist.
  - intros t Ht Hk. unfold staff_download, params_get. rewrite Ht.
    cbn [bind StudentModule_get]. now rewrite Hk.
Qed.

(** ** Upload *)

Section UploadProperties.

Variable guess_type : string -> option string * option string.
Variable save_File_file :
  gmap string (list byte) -> string -> option exn * gmap string (list byte).

Lemma store_file_undefined :
  getattr_self "store_file" = Raise (AttributeError "store_file").
Proof. vm_compute. reflexivity. Qed.

Lemma run_step (fuel : nat) (request : Request) (l : line) (fr : Frame) :
  run guess_type save_File_file (S fuel) request l fr
  = match exec guess_type save_File_file request l fr with
    | Next l' fr' =>
        let '(tr, out) := run guess_type save_File_file fuel request l' fr' in ((l, fr) :: tr, out)
    | out => ([(l, fr)], out)
    end.
Proof. reflexivity. Qed.

(** An upload that carries a file passes lines 181-185 and stops at
    line 186, where [self.store_file] is looked up. *)
Lemma upload_assignment_file (b : Block) (w : World) (request : Request)
      (f : PyFile) :
  params request !! "assignment" = Some (Upload f) ->
  upload_assignment guess_type save_File_file b w request
  = (map (fun l => (l, frame_at guess_type b w f l))
       [L181; L182; L183; L184; L185; L186],
     Raised (AttributeError "store_file") (frame_at guess_type b w f L186)).
Proof.
  intros Hp. unfold upload_assignment.
  rewrite run_step. cbn [exec]. unfold params_get. rewrite Hp.
  rewrite run_step. cbn [exec upload_file upload]. rewrite get_sha1_spec.
  rewrite run_step. cbn [exec upload_file upload with_self].
  rewrite run_step. cbn [exec upload_file upload with_self].
  rewrite run_step. cbn [exec upload_file upload with_self].
  rewrite run_step. cbn [exec]. rewrite store_file_undefined.
  reflexivity.
Qed.

(** Without a file in the [assignment] field the handler stops at line
    181 or 182, before any field is assigned. *)
Lemma upload_assignment_no_file (b : Block) (w : World) (request : Request) :
  (forall f, params request !! "assignment" <> Some (Upload f)) ->
  exists e fr,
    snd (upload_assignment guess_type save_File_file b w request) = Raised e fr /\
    self fr = b /\ world fr = w /\
    forall l fr', In (l, fr') (fst (upload_assignment guess_type save_File_file b w request)) ->
                  (l = L181 \/ l = L182) /\ self fr' = b /\ world fr' = w.
Proof.
  intros Hno. unfold upload_assignment.
  rewrite run_step. cbn [exec]. unfold params_get.
  destruct (params request !! "assignment") as [[t | f] |] eqn:Hp.
  - rewrite run_step. cbn [exec upload_file upload].
    eexists _, _. split; [reflexivity |]. cbn [self world fst].
    split; [reflexivity | split; [reflexivity |]].
    intros l fr' [[= <- <-] | [[= <- <-] | []]]; cbn; auto.
  - now destruct (Hno f).
  - eexists _, _. split; [reflexivity |]. cbn [fst].
    split; [reflexivity | split; [reflexivity |]].
    intros l fr' [[= <- <-] | []]; cbn; auto.
Qed.

Lemma frame_at_world (b : Block) (w : World) (f : PyFile) (l : line) :
  world (frame_at guess_type b w f l) = w.
Proof. now destruct l. Qed.

Lemma has_file_dec (request : Request) :
  (exists f, params request !! "assignment" = Some (Upload f)) \/
  (forall f, params request !! "assignment" <> Some (Upload f)).
Proof.
  destruct (params request !! "assignment") as [[t | f] |];
    [right | left; now exists f | right]; intros f'; discriminate.
Qed.

(** The block an upload leaves behind: rewritten in all four fields, or
    untouched. *)
Lemma upload_assignment_self (b : Block) (w : World) (request : Request) :
  self (frame_of (snd (upload_assignment guess_type save_File_file b w request))) = b \/
  exists f, self (frame_of (snd (upload_assignment guess_type save_File_file b w request)))
            = recorded guess_type b w f.
Proof.
  destruct (has_file_dec request) as [[f Hf] | Hno].
  - right. exists f. now rewrite (upload_assignment_file _ _ _ _ Hf).
  - left. destruct (upload_assignment_no_file b w request Hno) as (e & fr & -> & Hb & _).
    exact Hb.
Qed.

(** Control only moves forward; line 190 alone writes the blob store,
    and lines 182-185 alone write the record. *)
Lemma exec_forward (request : Request) (l l' : line) (fr fr' : Frame) :
  exec guess_type save_File_file request l fr = Next l' fr' ->
  line_number l < line_number l' /\
  (l <> L190 -> world fr' = world fr) /\
  (line_number l < 182 \/ 185 < line_number l -> self fr' = self fr).
Proof.
  destruct l; cbn [exec line_number].
  - destruct (params_get request "assignment"); intros [= <- <-].
    cbn. repeat split; lia.
  - destruct (upload_file fr); [| discriminate].
    destruct (_get_sha1 a). intros [= <- <-]. cbn. repeat split; lia.
  - destruct (upload_file fr); intros [= <- <-]. cbn. repeat split; lia.
  - destruct (upload_file fr); intros [= <- <-]. cbn. repeat split; lia.
  - intros [= <- <-]. cbn. repeat split; lia.
  - destruct (getattr_self "store_file"); intros [= <- <-]. cbn. repeat split; lia.
  - destruct (_file_storage_path _ _ _); intros [= <- <-]. cbn. repeat split; lia.
  - destruct (path fr); [| discriminate].
    destruct (negb _); intros [= <- <-]; cbn; repeat split; lia.
  - destruct (path fr); [| discriminate].
    destruct (save_File_file _ _) as [[e |] st]; intros [= <- <-].
    cbn. repeat split; try lia; congruence.
  - discriminate.
Qed.

(** C1 (as amended).  During an upload the fields of the record object
    are written before the blob save is attempted, not after it.
    Lines 182-185, which assign them, are the only lines that write the
    record; line 190, the save, is the only line that writes the blob
    store; control only moves forward.  So an upload that carries a
    file reaches line 186 with the record holding the digest of the
    uploaded bytes, the file's name, the guessed MIME type and the
    time of the clock, and with the blob store as the request found
    it. *)
Theorem C1_record_written_before_save (b : Block) (w : World) (request : Request)
        (f : PyFile) :
  params request !! "assignment" = Some (Upload f) ->
  (exists fr,
     In (L186, fr) (fst (upload_assignment guess_type save_File_file b w request)) /\
     uploaded_sha1 (self fr)
     = Some (sha1_hexdigest (drop (file_pos f) (file_content f))) /\
     uploaded_filename (self fr) = Some (file_name f) /\
     uploaded_mimetype (self fr) = fst (guess_type (file_name f)) /\
     uploaded_timestamp (self fr) = Some (clock w) /\
     location_url (self fr) = location_url b /\
     storage (world fr) = storage w) /\
  (forall l fr,
     In (l, fr) (fst (upload_assignment guess_type save_File_file b w request)) ->
     line_number l <= 186 -> storage (world fr) = storage w) /\
  (forall l fr l' fr',
     exec guess_type save_File_file request l fr = Next l' fr' ->
     line_number l < line_number l' /\
     (l <> L190 -> storage (world fr') = storage (world fr)) /\
     (line_number l < 182 \/ 185 < line_number l -> self fr' = self fr)).
Proof.
  intros Hf. rewrite (upload_assignment_file _ _ _ _ Hf). cbn [fst map].
  split; [| split].
  - eexists. split; [do 5 right; left; reflexivity |]. repeat split.
  - intros l fr [[= <- <-] | [[= <- <-] | [[= <- <-] | [[= <- <-] |
      [[= <- <-] | [[= <- <-] | []]]]]]]; reflexivity.
  - intros l fr l' fr' Hex.
    destruct (exec_forward _ _ _ _ _ Hex) as (Hlt & Hw & Hs).
    split; [exact Hlt |]. split; [| exact Hs].
    intros Hl. now rewrite (Hw Hl).
Qed.

(** C3 (as amended).  For every request the handler ends in an
    exception and the blob store is never written: the upload does not
    complete.  For every upload request that carries a file in its
    [assignment] field, the exception is the AttributeError of
    [self.store_file] at line 186, and at that moment the four fields
    of the record object hold the values of this upload; they are not
    restored, so the object is not as the request found it unless it
    held these very values already. *)
Theorem C3_upload_raises_after_record_update (b : Block) (w : World)
        (request : Request) :
  (exists e fr, snd (upload_assignment guess_type save_File_file b w request) = Raised e fr /\
                storage (world fr) = storage w) /\
  (forall l fr, In (l, fr) (fst (upload_assignment guess_type save_File_file b w request)) ->
                l <> L190 /\ storage (world fr) = storage w) /\
  (forall f, params request !! "assignment" = Some (Upload f) ->
     exists fr,
       snd (upload_assignment guess_type save_File_file b w request)
       = Raised (AttributeError "store_file") fr /\
       uploaded_sha1 (self fr)
       = Some (sha1_hexdigest (drop (file_pos f) (file_content f))) /\
       uploaded_filename (self fr) = Some (file_name f) /\
       uploaded_mimetype (self fr) = fst (guess_type (file_name f)) /\
       uploaded_timestamp (self fr) = Some (clock w) /\
       (self fr = b <->
        uploaded_sha1 b
        = Some (sha1_hexdigest (drop (file_pos f) (file_content f))) /\
        uploaded_filename b = Some (file_name f) /\
        uploaded_mimetype b = fst (guess_type (file_name f)) /\
        uploaded_timestamp b = Some (clock w))).
Proof.
  destruct (has_file_dec request) as [[f Hf] | Hno].
  - rewrite (upload_assignment_file _ _ _ _ Hf). cbn [fst snd map].
    split; [| split].
    + eexists _, _. split; [reflexivity |]. now rewrite frame_at_world.
    + intros l fr [[= <- <-] | [[= <- <-] | [[= <- <-] | [[= <- <-] |
        [[= <- <-] | [[= <- <-] | []]]]]]]; (split; [discriminate | reflexivity]).
    + intros f' Hf'. assert (f' = f) as -> by congruence.
      eexists. split; [reflexivity |].
      repeat (split; [reflexivity |]).
      change (self (frame_at guess_type b w f L186)) with (recorded guess_type b w f).
      split.
      * intros Hb. rewrite <- Hb. repeat split.
      * intros (H1 & H2 & H3 & H4). destruct b. cbn in H1, H2, H3, H4.
        unfold recorded, set_uploaded_timestamp, set_uploaded_mimetype,
          set_uploaded_filename, set_uploaded_sha1, _now. cbn.
        now rewrite H1, H2, H3, H4.
  - destruct (upload_assignment_no_file b w request Hno)
      as (e & fr & Hout & Hb & Hw & Htr).
    split; [| split].
    + exists e, fr. split; [exact Hout | now rewrite Hw].
    + intros l fr' Hin. destruct (Htr l fr' Hin) as ([-> | ->] & _ & ->);
        (split; [discriminate | reflexivity]).
    + intros f Hf. now destruct (Hno f).
Qed.

(** The guard of line 189: when a blob is already at the path, the save
    of line 190 is skipped and nothing changes. *)
Lemma exec_L189_existing (request : Request) (fr : Frame) (p : string)
      (data : list byte) :
  path fr = Some p ->
  storage (world fr) !! p = Some data ->
  exec guess_type save_File_file request L189 fr = Next L191 fr.
Proof.
  intros Hp Hd. cbn [exec]. rewrite Hp. unfold storage_exists.
  rewrite Hd. rewrite bool_decide_eq_true_2 by eauto. reflexivity.
Qed.

(** Were line 186 to pass: with a blob already at the record's path the
    handler returns the projection and leaves the store alone. *)
Lemma run_from_L187_existing (request : Request) (fr : Frame) (p : string)
      (data : list byte) :
  _file_storage_path (location_url (self fr)) (uploaded_sha1 (self fr))
    (uploaded_filename (self fr)) = Ok p ->
  storage (world fr) !! p = Some data ->
  exists fr',
    snd (run guess_type save_File_file 4 request L187 fr)
    = Returned {| json_body := Some (student_state (self fr)); app_iter := [];
                  content_type := Some "application/json";
                  content_disposition := None |} fr' /\
    self fr' = self fr /\ world fr' = world fr.
Proof.
  intros Hp Hd. rewrite run_step. cbn [exec]. rewrite Hp.
  rewrite run_step.
  rewrite (exec_L189_existing _ _ p data) by (cbn; auto).
  rewrite run_step. cbn [exec snd self world]. eauto.
Qed.

(** Were line 186 to pass: with no blob at the record's path what is
    stored is what the backend makes of [File(file)]; the uploaded
    bytes are not handed to it. *)
Lemma run_from_L187_free (request : Request) (fr : Frame) (p : string) :
  _file_storage_path (location_url (self fr)) (uploaded_sha1 (self fr))
    (uploaded_filename (self fr)) = Ok p ->
  storage (world fr) !! p = None ->
  storage (world (frame_of (snd (run guess_type save_File_file 4 request L187 fr))))
  = snd (save_File_file (storage (world fr)) p).
Proof.
  intros Hp Hd. rewrite run_step. cbn [exec]. rewrite Hp.
  rewrite run_step. cbn [exec path world storage]. unfold storage_exists.
  rewrite Hd. rewrite bool_decide_eq_false_2 by (intros [x Hx]; discriminate).
  cbn [negb]. rewrite run_step. cbn [exec path world storage].
  destruct (save_File_file (storage (world fr)) p) as [[e |] st]; cbn [snd].
  - reflexivity.
  - rewrite run_step. reflexivity.
Qed.

(** On the block object, as each call leaves it, the content hash, the
    file name and the upload time are set together or not at all, and a
    MIME type is set only if they are. *)
Lemma object_fields_set_together (b : Block) :
  reachable guess_type save_File_file b ->
  is_set (uploaded_sha1 b) = is_set (uploaded_filename b) /\
  is_set (uploaded_sha1 b) = is_set (uploaded_timestamp b) /\
  (is_set (uploaded_mimetype b) = true -> is_set (uploaded_sha1 b) = true).
Proof.
  induction 1 as [url staff uid | c b w request Hb IH].
  - cbn. repeat split. discriminate.
  - destruct c; cbn [block_after]; try exact IH.
    destruct (upload_assignment_self b w request) as [-> | [f ->]];
      [exact IH | cbn; auto].
Qed.



(** C8 (as amended).  The recorded MIME type is the first component of
    what [mimetypes.guess_type] answers for the uploaded file name: for
    a name whose type it does not know the record's MIME type is unset
    (None), no generic type is put in its place.  Line 184, which
    derives it, raises nothing. *)
Theorem C8_recorded_mimetype (b : Block) (w : World) (request : Request)
        (f : PyFile) :
  params request !! "assignment" = Some (Upload f) ->
  uploaded_mimetype (self (frame_of (snd (upload_assignment guess_type save_File_file b w request))))
  = fst (guess_type (file_name f)) /\
  (fst (guess_type (file_name f)) = None ->
   uploaded_mimetype (self (frame_of (snd (upload_assignment guess_type save_File_file b w request))))
   = None) /\
  (forall fr, upload fr = Some (Upload f) ->
     exec guess_type save_File_file request L184 fr
     = Next L185
         (with_self (set_uploaded_mimetype (fst (guess_type (file_name f))) (self fr))
            fr)).
Proof.
  intros Hf. rewrite (upload_assignment_file _ _ _ _ Hf). cbn [snd frame_of].
  split; [reflexivity |]. split.
  - intros <-. reflexivity.
  - intros fr Hu. cbn [exec]. unfold upload_file. now rewrite Hu.
Qed.

(** C4 (the code at an upload followed by a self-download).  The upload
    ends in the AttributeError of line 186 with the record already
    rewritten and no blob saved; unless the blob store held a blob at
    the record's path beforehand, the self-download that follows fails
    with IOError and returns no content. *)
Theorem C4_upload_then_download (b : Block) (w : World)
        (request request' : Request) (f : PyFile) :
  params request !! "assignment" = Some (Upload f) ->
  startswith (location_url b) "i4x://" = true ->
  let out := snd (upload_assignment guess_type save_File_file b w request) in
  let p := str_drop 6 (location_url b) +:+ "/" +:+
           sha1_hexdigest (drop (file_pos f) (file_content f)) +:+
           snd (splitext (file_name f)) in
  storage w !! p = None ->
  out = Raised (AttributeError "store_file") (frame_of out) /\
  download_assignment (self (frame_of out)) (world (frame_of out)) request'
  = Raise (IOError p).
Proof.
  intros Hf Hurl out p Hp. subst out.
  rewrite (upload_assignment_file _ _ _ _ Hf). cbn [snd frame_of].
  split; [reflexivity |].
  unfold download_assignment, _file_storage_path. cbn. rewrite Hurl. cbn [negb bind].
  rewrite !append_assoc. now apply download_missing.
Qed.

(** C6 (the code at two uploads of the same file).  When two students
    upload the same file to the same store one after the other, both
    uploads end in the AttributeError of line 186, both records name
    the same content hash, and the blob store is as it was before the
    first upload: no blob has been stored for them. *)
Theorem C6_two_uploads_store_no_blob (bA bB : Block) (w : World)
        (requestA requestB : Request) (f : PyFile) :
  params requestA !! "assignment" = Some (Upload f) ->
  params requestB !! "assignment" = Some (Upload f) ->
  let outA := snd (upload_assignment guess_type save_File_file bA w requestA) in
  let outB :=
    snd (upload_assignment guess_type save_File_file bB (world (frame_of outA)) requestB) in
  storage (world (frame_of outB)) = storage w /\
  (exists frA frB, outA = Raised (AttributeError "store_file") frA /\
                   outB = Raised (AttributeError "store_file") frB) /\
  uploaded_sha1 (self (frame_of outA)) = uploaded_sha1 (self (frame_of outB)) /\
  is_set (uploaded_sha1 (self (frame_of outA))) = true.
Proof.
  intros HA HB outA outB. subst outB outA.
  rewrite (upload_assignment_file _ _ _ _ HA). cbn [snd frame_of].
  rewrite (upload_assignment_file _ _ _ _ HB). cbn [snd frame_of].
  rewrite !frame_at_world. split; [reflexivity |].
  split; [eexists _, _; split; reflexivity |]. split; reflexivity.
Qed.

End UploadProperties.

(** ** The code on concrete inputs *)

Example report_pdf_digest :
  fst (_get_sha1 report_pdf) = "c3f87c10afb1d46eba76865f9b389eef9abd50f0".
Proof. vm_compute. reflexivity. Qed.

Lemma upload_request_file (f : PyFile) :
  params (upload_request f) !! "assignment" = Some (Upload f).
Proof. apply lookup_singleton_eq. Qed.

(** C1, as stated, fails: student A uploads report.pdf to an empty blob
    store.  Before the request the record references nothing unsaved; at
    line 186 it names the hash of the upload, and no blob is stored. *)
Lemma C1_counterexample :
  let tr := fst (upload_assignment excerpt_guess_type fs_save_File_file student_block empty_world
                   (upload_request report_pdf)) in
  references_unsaved_blob student_block (storage empty_world) = false /\
  exists fr, In (L186, fr) tr /\
             uploaded_sha1 (self fr)
             = Some "c3f87c10afb1d46eba76865f9b389eef9abd50f0" /\
             storage (world fr) = ∅ /\
             references_unsaved_blob (self fr) (storage (world fr)) = true.
Proof.
  cbv zeta. split; [reflexivity |].
  rewrite (upload_assignment_file excerpt_guess_type fs_save_File_file _ _ _ report_pdf
             (upload_request_file report_pdf)).
  eexists. split; [cbn; do 5 right; left; reflexivity |].
  split; [vm_compute; reflexivity |]. split; vm_compute; reflexivity.
Qed.

(** C1 as amended, at the upload of report.pdf to the empty store. *)
Lemma C1_witness :
  (exists fr,
     In (L186, fr)
        (fst (upload_assignment excerpt_guess_type fs_save_File_file student_block
                empty_world (upload_request report_pdf))) /\
     uploaded_sha1 (self fr)
     = Some (sha1_hexdigest (drop (file_pos report_pdf) (file_content report_pdf))) /\
     uploaded_filename (self fr) = Some (file_name report_pdf) /\
     uploaded_mimetype (self fr) = fst (excerpt_guess_type (file_name report_pdf)) /\
     uploaded_timestamp (self fr) = Some (clock empty_world) /\
     location_url (self fr) = location_url student_block /\
     storage (world fr) = storage empty_world) /\
  (forall l fr,
     In (l, fr)
        (fst (upload_assignment excerpt_guess_type fs_save_File_file student_block
                empty_world (upload_request report_pdf))) ->
     line_number l <= 186 -> storage (world fr) = storage empty_world) /\
  (forall l fr l' fr',
     exec excerpt_guess_type fs_save_File_file (upload_request report_pdf) l fr
     = Next l' fr' ->
     line_number l < line_number l' /\
     (l <> L190 -> storage (world fr') = storage (world fr)) /\
     (line_number l < 182 \/ 185 < line_number l -> self fr' = self fr)).
Proof.
  exact (C1_record_written_before_save excerpt_guess_type fs_save_File_file
           student_block empty_world (upload_request report_pdf) report_pdf
           (upload_request_file report_pdf)).
Defined.

(** C2, as stated, fails: a caller without the staff flag, for whom the
    staff grading interface is off, downloads the stored submission of
    student 7: no AuthorizationError. *)
Lemma C2_counterexample :
  user_is_staff student_block = false /\
  show_staff_grading_interface student_block = false /\
  (exists resp,
     staff_download decimal_int student_block submitted_world staff_download_request
     = Ok resp /\
     concat (app_iter resp) = file_content report_pdf) /\
  ~ fails_with (staff_download decimal_int student_block submitted_world
                  staff_download_request)
      AuthorizationError.
Proof.
  split; [reflexivity |]. split; [reflexivity |]. split.
  - eexists. split; vm_compute; reflexivity.
  - apply never_AuthorizationError.
Qed.

(** C2 as amended, at a module_id that is the key of no row. *)
Lemma C2_witness :
  staff_download decimal_int student_block submitted_world unknown_module_request
  = Raise DoesNotExist /\
  fails_with (staff_download decimal_int student_block submitted_world
                unknown_module_request)
    NotFoundError.
Proof.
  apply (proj1 (proj2 (C2_staff_download decimal_int student_block submitted_world
                         unknown_module_request)) "9" 9).
  - apply lookup_singleton_eq.
  - reflexivity.
  - reflexivity.
Defined.

(** The key is the integer that the text denotes: 07 finds row 7, and a
    text that denotes no integer is a ValueError. *)
Example staff_download_padded_id :
  staff_download decimal_int student_block submitted_world padded_module_request
  = staff_download decimal_int student_block submitted_world staff_download_request.
Proof. vm_compute. reflexivity. Qed.

Example staff_download_text_id :
  staff_download decimal_int student_block submitted_world text_module_request
  = Raise ValueError.
Proof. vm_compute. reflexivity. Qed.

(** C3, as stated, fails: an upload request without the file part ends
    in KeyError at line 181, not in the AttributeError of
    [self.store_file], and the record is as it was. *)
Lemma C3_counterexample :
  snd (upload_assignment excerpt_guess_type fs_save_File_file resubmitting_block
         empty_world no_params)
  = Raised (KeyError "assignment") (entry_frame resubmitting_block empty_world) /\
  self (frame_of (snd (upload_assignment excerpt_guess_type fs_save_File_file
                         resubmitting_block empty_world no_params)))
  = resubmitting_block /\
  ~ (exists fr,
       snd (upload_assignment excerpt_guess_type fs_save_File_file
              resubmitting_block empty_world no_params)
       = Raised (AttributeError "store_file") fr).
Proof.
  assert (H : snd (upload_assignment excerpt_guess_type fs_save_File_file
                     resubmitting_block empty_world no_params)
              = Raised (KeyError "assignment")
                  (entry_frame resubmitting_block empty_world))
    by (vm_compute; reflexivity).
  rewrite H. split; [reflexivity |]. split; [reflexivity |].
  intros [fr Hfr]. discriminate.
Qed.

(** C3 as amended, at the upload of report.pdf by a student with a
    fresh record. *)
Lemma C3_witness :
  exists fr,
    snd (upload_assignment excerpt_guess_type fs_save_File_file student_block empty_world
           (upload_request report_pdf))
    = Raised (AttributeError "store_file") fr /\
    uploaded_sha1 (self fr)
    = Some (sha1_hexdigest (drop (file_pos report_pdf) (file_content report_pdf))) /\
    uploaded_filename (self fr) = Some (file_name report_pdf) /\
    uploaded_mimetype (self fr) = fst (excerpt_guess_type (file_name report_pdf)) /\
    uploaded_timestamp (self fr) = Some (clock empty_world) /\
    (self fr = student_block <->
     uploaded_sha1 student_block
     = Some (sha1_hexdigest (drop (file_pos report_pdf) (file_content report_pdf))) /\
     uploaded_filename student_block = Some (file_name report_pdf) /\
     uploaded_mimetype student_block
     = fst (excerpt_guess_type (file_name report_pdf)) /\
     uploaded_timestamp student_block = Some (clock empty_world)).
Proof.
  apply (proj2 (proj2 (C3_upload_raises_after_record_update excerpt_guess_type fs_save_File_file
                         student_block empty_world (upload_request report_pdf)))
           report_pdf).
  apply upload_request_file.
Defined.

Example upload_report_pdf :
  snd (upload_assignment excerpt_guess_type fs_save_File_file student_block empty_world
         (upload_request report_pdf))
  = Raised (AttributeError "store_file")
      {| self := {| location_url := hw1_url; user_is_staff := false;
                    user_id := Some "student";
                    uploaded_sha1 := Some "c3f87c10afb1d46eba76865f9b389eef9abd50f0";
                    uploaded_filename := Some "report.pdf";
                    uploaded_mimetype := Some "application/pdf";
                    uploaded_timestamp := Some 1400000000000000 |};
         world := empty_world;
         upload := Some (Upload report_pdf);
         path := None |}.
Proof. vm_compute. reflexivity. Qed.

(** A request without the [assignment] field stops at line 181 with
    KeyError, the record untouched. *)
Example upload_without_file :
  snd (upload_assignment excerpt_guess_type fs_save_File_file student_block empty_world no_params)
  = Raised (KeyError "assignment") (entry_frame student_block empty_world).
Proof. vm_compute. reflexivity. Qed.

(** C4 at the upload of report.pdf to the empty store, then a download. *)
Lemma C4_witness :
  let out := snd (upload_assignment excerpt_guess_type fs_save_File_file student_block empty_world
                    (upload_request report_pdf)) in
  let p := str_drop 6 (location_url student_block) +:+ "/" +:+
           sha1_hexdigest (drop (file_pos report_pdf) (file_content report_pdf)) +:+
           snd (splitext (file_name report_pdf)) in
  out = Raised (AttributeError "store_file") (frame_of out) /\
  download_assignment (self (frame_of out)) (world (frame_of out)) no_params
  = Raise (IOError p).
Proof.
  apply (C4_upload_then_download excerpt_guess_type fs_save_File_file student_block empty_world
           (upload_request report_pdf) no_params report_pdf).
  - apply upload_request_file.
  - reflexivity.
  - apply lookup_empty.
Defined.

Example upload_then_download_report_pdf :
  let out := snd (upload_assignment excerpt_guess_type fs_save_File_file student_block empty_world
                    (upload_request report_pdf)) in
  download_assignment (self (frame_of out)) (world (frame_of out)) no_params
  = Raise (IOError "org/course/sga/hw1/c3f87c10afb1d46eba76865f9b389eef9abd50f0.pdf").
Proof. vm_compute. reflexivity. Qed.

(** C5, as stated, fails: the self-download of a student who has
    uploaded nothing ends in TypeError, which is no NoSubmissionError. *)
Lemma C5_counterexample :
  uploaded_sha1 student_block = None /\
  download_assignment student_block empty_world no_params = Raise TypeError /\
  ~ fails_with (download_assignment student_block empty_world no_params)
      NoSubmissionError.
Proof.
  split; [reflexivity |]. split; [reflexivity |]. apply never_NoSubmissionError.
Qed.

(** C5 as amended, at a fresh record. *)
Lemma C5_witness :
  download_assignment student_block empty_world no_params
  = Raise (if startswith (location_url student_block) "i4x://" then TypeError
           else AssertionError) /\
  is_ok (download_assignment student_block empty_world no_params) = false /\
  ~ fails_with (download_assignment student_block empty_world no_params)
      NoSubmissionError.
Proof.
  apply (proj1 (C5_download_without_hash student_block empty_world no_params)).
  reflexivity.
Defined.

(** C6 at two students who upload report.pdf to the empty store. *)
Lemma C6_witness :
  let outA := snd (upload_assignment excerpt_guess_type fs_save_File_file student_block empty_world
                     (upload_request report_pdf)) in
  let outB := snd (upload_assignment excerpt_guess_type fs_save_File_file other_student_block
                     (world (frame_of outA)) (upload_request report_pdf)) in
  storage (world (frame_of outB)) = storage empty_world /\
  (exists frA frB, outA = Raised (AttributeError "store_file") frA /\
                   outB = Raised (AttributeError "store_file") frB) /\
  uploaded_sha1 (self (frame_of outA)) = uploaded_sha1 (self (frame_of outB)) /\
  is_set (uploaded_sha1 (self (frame_of outA))) = true.
Proof.
  apply (C6_two_uploads_store_no_blob excerpt_guess_type fs_save_File_file student_block
           other_student_block empty_world (upload_request report_pdf)
           (upload_request report_pdf) report_pdf);
    apply upload_request_file.
Defined.

(** After the two uploads the blob store holds no blob at all. *)
Example two_uploads_empty_store :
  let outA := snd (upload_assignment excerpt_guess_type fs_save_File_file student_block empty_world
                     (upload_request report_pdf)) in
  let outB := snd (upload_assignment excerpt_guess_type fs_save_File_file other_student_block
                     (world (frame_of outA)) (upload_request report_pdf)) in
  size (storage (world (frame_of outB))) = 0%nat.
Proof. vm_compute. reflexivity. Qed.

(** On the handler's object the MIME type can stay unset: after the
    field assignments of an upload of README, a name for which no type
    is known, the object has a content hash, a file name and an upload
    time, and no MIME type. *)
Example object_without_mimetype :
  exists b,
    reachable excerpt_guess_type fs_save_File_file b /\
    is_set (uploaded_sha1 b) = true /\
    is_set (uploaded_filename b) = true /\
    is_set (uploaded_timestamp b) = true /\
    is_set (uploaded_mimetype b) = false.
Proof.
  exists (block_after excerpt_guess_type fs_save_File_file CallUpload student_block
            empty_world (upload_request readme)).
  split; [apply reach_call, reach_fresh |].
  repeat split; vm_compute; reflexivity.
Qed.


(** C8, as stated, fails: README has no extension that the type guess
    knows, and the MIME type recorded for it is None, not a generic
    octet-stream type. *)
Lemma C8_counterexample :
  excerpt_guess_type (file_name readme) = (None, None) /\
  uploaded_mimetype
    (self (frame_of (snd (upload_assignment excerpt_guess_type fs_save_File_file student_block
                            empty_world (upload_request readme)))))
  = None /\
  uploaded_mimetype
    (self (frame_of (snd (upload_assignment excerpt_guess_type fs_save_File_file student_block
                            empty_world (upload_request readme)))))
  <> Some "application/octet-stream".
Proof.
  split; [reflexivity |].
  assert (H : uploaded_mimetype
                (self (frame_of (snd (upload_assignment excerpt_guess_type fs_save_File_file
                                        student_block empty_world
                                        (upload_request readme))))) = None)
    by (vm_compute; reflexivity).
  split; [exact H | rewrite H; discriminate].
Qed.

(** C8 as amended, at the upload of README. *)
Lemma C8_witness :
  uploaded_mimetype
    (self (frame_of (snd (upload_assignment excerpt_guess_type fs_save_File_file student_block
                            empty_world (upload_request readme)))))
  = fst (excerpt_guess_type (file_name readme)) /\
  (fst (excerpt_guess_type (file_name readme)) = None ->
   uploaded_mimetype
     (self (frame_of (snd (upload_assignment excerpt_guess_type fs_save_File_file student_block
                             empty_world (upload_request readme)))))
   = None) /\
  (forall fr, upload fr = Some (Upload readme) ->
     exec excerpt_guess_type fs_save_File_file (upload_request readme) L184 fr
     = Next L185
         (with_self
            (set_uploaded_mimetype (fst (excerpt_guess_type (file_name readme)))
               (self fr)) fr)).
Proof.
  apply (C8_recorded_mimetype excerpt_guess_type fs_save_File_file student_block empty_world
           (upload_request readme) readme).
  apply upload_request_file.
Defined.

(** C9, as stated, fails: the path for the location
    i4x://org/course/sga/hw1 is not that scope identifier followed by
    the separator, the hash and the extension; the scheme is cut off. *)
Lemma C9_counterexample :
  startswith hw1_url "i4x://" = true /\
  _file_storage_path hw1_url (Some "abc") (Some "report.pdf")
  = Ok "org/course/sga/hw1/abc.pdf" /\
  _file_storage_path hw1_url (Some "abc") (Some "report.pdf")
  <> Ok (hw1_url +:+ "/" +:+ "abc" +:+ ".pdf").
Proof.
  split; [reflexivity |]. split; [reflexivity |]. vm_compute. discriminate.
Qed.

(** C9 as amended, at the location of homework 1. *)
Lemma C9_witness :
  _file_storage_path hw1_url (Some "abc") (Some "report.pdf")
  = Ok (str_drop 6 hw1_url +:+ "/" +:+ "abc" +:+ snd (splitext "report.pdf")) /\
  (snd (splitext "report.pdf") = "" \/
   exists t, snd (splitext "report.pdf") = String "." t /\
             rfind t "." = -1 /\ rfind t "/" = -1) /\
  fst (splitext "report.pdf") +:+ snd (splitext "report.pdf") = "report.pdf".
Proof.
  apply (proj1 (C9_file_storage_path hw1_url "abc" "report.pdf")).
  reflexivity.
Defined.

Example path_without_scheme :
  _file_storage_path "i4x://" (Some "abc") (Some "report.pdf") = Ok "/abc.pdf".
Proof. reflexivity. Qed.

Example path_empty_url :
  _file_storage_path "" (Some "abc") (Some "report.pdf") = Raise AssertionError.
Proof. reflexivity. Qed.

(** C10 at the record of student 7, which has a hash and a file name. *)
Lemma C10_witness :
  student_state submitted_block
  = JObject [("uploaded", JObject [("filename", JString "report.pdf")])].
Proof.
  apply (proj1 (proj2 (C10_student_state_projection submitted_block))
           "abc" "report.pdf").
  - reflexivity.
  - discriminate.
  - reflexivity.
Defined.

Example student_state_fresh :
  student_state student_block = JObject [("uploaded", JNull)].
Proof. reflexivity. Qed.

Example student_state_empty_hash :
  student_state (set_uploaded_sha1 (Some "") submitted_block)
  = JObject [("uploaded", JNull)].
Proof. reflexivity. Qed.

Example student_state_uploaded :
  student_state
    (recorded excerpt_guess_type student_block empty_world report_pdf)
  = JObject [("uploaded", JObject [("filename", JString "report.pdf")])].
Proof. vm_compute. reflexivity. Qed.

(** * Further properties of the code *)

(** ** Hashing and block reads *)

Lemma iter_read_exhausted (fuel n : nat) (f : PyFile) :
  drop (file_pos f) (file_content f) = [] -> fst (iter_read fuel n f) = [].
Proof.
  intros H. destruct fuel as [|fuel]; [reflexivity |].
  cbn [iter_read file_read]. rewrite H. now rewrite take_nil.
Qed.

(** The blocks of a read loop: none is empty, none is longer than the
    block size, and all before the last are full. *)
Lemma iter_read_blocks (n fuel : nat) (f : PyFile) :
  (0 < n)%nat ->
  (length (drop (file_pos f) (file_content f)) < fuel)%nat ->
  forall (i : nat) (b : list byte),
    fst (iter_read fuel n f) !! i = Some b ->
    (0 < length b <= n)%nat /\
    (S i < length (fst (iter_read fuel n f)) -> length b = n)%nat.
Proof.
  intros Hn. revert f. induction fuel as [|fuel IH]; intros f Hfuel i b; [lia |].
  cbn [iter_read file_read].
  set (rest := drop (file_pos f) (file_content f)) in *.
  destruct (take n rest) as [|x block] eqn:Eblock; [discriminate |].
  set (f' := {| file_name := file_name f; file_content := file_content f;
                file_pos := (file_pos f + length (x :: block))%nat |}).
  assert (Hrest' : drop (file_pos f') (file_content f') = drop n rest).
  { subst f' rest. cbn [file_pos file_content].
    rewrite <- Eblock, <- drop_drop. apply take_drop_length. }
  assert (Hlen : (length (x :: block) <= n)%nat).
  { rewrite <- Eblock, length_take. lia. }
  assert (Hfuel' : (length (drop (file_pos f') (file_content f')) < fuel)%nat).
  { rewrite Hrest', length_drop.
    assert (length (take n rest) <> 0)%nat by (rewrite Eblock; discriminate).
    rewrite length_take in H. lia. }
  specialize (IH f' Hfuel').
  destruct (iter_read fuel n f') as [blocks f''] eqn:E. cbn [fst] in *.
  destruct i as [|i]; cbn [lookup list_lookup].
  - intros [= <-]. split; [cbn [length] in *; lia |].
    intros Hmore. destruct blocks as [|b' blocks]; [cbn in Hmore; lia |].
    destruct (decide (drop n rest = [])) as [Hnil | Hne].
    + pose proof (iter_read_exhausted fuel n f') as Hex.
      rewrite Hrest', E in Hex. now specialize (Hex Hnil).
    + rewrite <- Eblock, length_take.
      assert (length (drop n rest) <> 0)%nat
        by (destruct (drop n rest); [congruence | discriminate]).
      rewrite length_drop in H. lia.
  - intros Hb. destruct (IH i b Hb) as [H1 H2]. split; [exact H1 |].
    cbn [length]. intros Hmore. apply H2. lia.
Qed.

(** X1.  [_get_sha1] returns the SHA-1 digest of the bytes from the
    file's position to its end, whatever the size of the blocks that
    the loop reads (the bytes before the position are not hashed), and
    leaves the file at position 0 with its name and content as before. *)
Theorem X1_get_sha1_digest_and_rewind (f : PyFile) (n : nat) :
  (0 < n)%nat ->
  fst (_get_sha1 f) = sha1_hexdigest (drop (file_pos f) (file_content f)) /\
  hexdigest (fold_left sha1_update (fst (iter_read (read_fuel f) n f)) sha1_new)
  = fst (_get_sha1 f) /\
  file_pos (snd (_get_sha1 f)) = 0%nat /\
  file_name (snd (_get_sha1 f)) = file_name f /\
  file_content (snd (_get_sha1 f)) = file_content f.
Proof.
  intros Hn. rewrite get_sha1_spec. cbn [fst snd file_seek file_pos file_name
                                          file_content].
  split; [reflexivity |]. split; [| auto].
  rewrite fold_sha1_update. unfold hexdigest. cbn [fed sha1_new app].
  destruct (iter_read_spec n (read_fuel f) f Hn) as (Hc & _).
  { unfold read_fuel. rewrite length_drop. lia. }
  now rewrite Hc.
Qed.

(** ** The digest as text *)

Lemma hex_digit_is_hex (n : Z) : is_hex_char (hex_digit n) = true.
Proof.
  unfold hex_digit. destruct (Z.to_nat n) as [|k]; [reflexivity |].
  do 15 (destruct k as [|k]; [reflexivity |]). reflexivity.
Qed.

Lemma append_length (a b : string) :
  String.length (a +:+ b) = (String.length a + String.length b)%nat.
Proof.
  induction a as [|c a IH]; [reflexivity |].
  change (S (String.length (a +:+ b)) = S (String.length a + String.length b)).
  now rewrite IH.
Qed.

Lemma hex8_format (x : Z) :
  String.length (hex8 x) = 8%nat /\ str_forall is_hex_char (hex8 x) = true.
Proof.
  unfold hex8. cbn [map string_of_list_ascii String.length str_forall].
  split; [reflexivity |]. now rewrite !hex_digit_is_hex.
Qed.

(** A digest is forty lowercase hexadecimal digits. *)
Lemma sha1_hexdigest_format (data : list byte) :
  String.length (sha1_hexdigest data) = 40%nat /\
  str_forall is_hex_char (sha1_hexdigest data) = true.
Proof.
  unfold sha1_hexdigest.
  destruct (sha1_blocks _ _ _) as [[[[h0 h1] h2] h3] h4].
  rewrite !append_length, !str_forall_app.
  pose proof (hex8_format h0) as [-> ->]. pose proof (hex8_format h1) as [-> ->].
  pose proof (hex8_format h2) as [-> ->]. pose proof (hex8_format h3) as [-> ->].
  pose proof (hex8_format h4) as [-> ->]. split; reflexivity.
Qed.

Lemma truthy_of_length (s : string) :
  String.length s <> 0%nat -> truthy (Some s) = true.
Proof. destruct s; [intros H; now destruct H | reflexivity]. Qed.

(** ** Downloads *)

(** X2.  [download] of a stored blob answers with the blob's bytes, in
    order, cut into blocks of which none is empty, none exceeds 8192
    bytes and all before the last are full, whatever MIME type is
    handed in; the disposition names the file as an attachment. *)
Theorem X2_download_streams_blob (w : World) (p : string) (data : list byte)
        (mimetype : option string) (fn : string) :
  storage w !! p = Some data ->
  exists resp,
    download w p mimetype (Some fn) = Ok resp /\
    concat (app_iter resp) = data /\
    (forall (i : nat) (b : list byte), app_iter resp !! i = Some b ->
       0 < Z.of_nat (length b) <= 8192 /\
       ((S i < length (app_iter resp))%nat -> Z.of_nat (length b) = 8192)) /\
    content_disposition resp = Some ("attachment; filename=" +:+ fn).
Proof.
  intros Hp. unfold download, storage_open. rewrite Hp. cbn [bind].
  eexists; split; [reflexivity |].
  cbn [app_iter content_disposition].
  set (f := {| file_name := p; file_content := data; file_pos := 0 |}).
  assert (Hfuel : (length (drop (file_pos f) (file_content f)) < read_fuel f)%nat).
  { unfold read_fuel. rewrite length_drop. lia. }
  split; [| split; [| auto]].
  - now destruct (iter_read_spec BLOCK_SIZE (read_fuel f) f BLOCK_SIZE_pos Hfuel).
  - intros i b Hb.
    pose proof (iter_read_blocks BLOCK_SIZE (read_fuel f) f BLOCK_SIZE_pos Hfuel i b Hb)
      as H.
    assert (E : Z.of_nat BLOCK_SIZE = 8192) by (vm_compute; reflexivity).
    destruct H as [H1 H2]. split; [lia |]. intros Hi. specialize (H2 Hi). lia.
Qed.

(** X3.  [download] succeeds exactly when a blob is stored at the path
    and a file name is given.  A missing blob is an IOError whatever
    the other arguments are; a stored blob with no file name is a
    TypeError; a missing MIME type is no error. *)
Theorem X3_download_failures (w : World) (p : string)
        (mimetype filename : option string) :
  (is_ok (download w p mimetype filename) = true <->
   is_Some (storage w !! p) /\ is_Some filename) /\
  (storage w !! p = None -> download w p mimetype filename = Raise (IOError p)) /\
  (is_Some (storage w !! p) -> filename = None ->
   download w p mimetype filename = Raise TypeError).
Proof.
  unfold download, storage_open.
  destruct (storage w !! p) as [data |] eqn:Hp; cbn [bind].
  - destruct filename as [fn |]; cbn [is_ok].
    + split; [split; [intros _; split; eauto | reflexivity] |].
      split; [discriminate | intros _ [=]].
    + split; [split; [discriminate | intros [_ [x [=]]]] |].
      split; [discriminate | reflexivity].
  - cbn [is_ok]. split; [split; [discriminate | intros [[x [=]] _]] |].
    split; [reflexivity | intros [x [=]]].
Qed.

(** X4.  A record whose blob is stored at its path downloads exactly
    that blob: [download_assignment] answers with the stored bytes and
    with the record's file name in the disposition, whatever the
    request holds and whatever MIME type the record has. *)
Theorem X4_download_assignment_stored (b : Block) (w : World) (request : Request)
        (h fn : string) (data : list byte) :
  startswith (location_url b) "i4x://" = true ->
  uploaded_sha1 b = Some h ->
  uploaded_filename b = Some fn ->
  storage w !! (str_drop 6 (location_url b) +:+ "/" +:+ h +:+ snd (splitext fn))
  = Some data ->
  exists resp,
    download_assignment b w request = Ok resp /\
    concat (app_iter resp) = data /\
    content_disposition resp = Some ("attachment; filename=" +:+ fn).
Proof.
  intros Hurl Hh Hfn Hd.
  unfold download_assignment, _file_storage_path. rewrite Hurl, Hh, Hfn.
  cbn [negb bind]. rewrite !append_assoc.
  destruct (download_stored w _ data (uploaded_mimetype b) fn Hd)
    as (resp & Hr & Hc & Ht & Hdisp).
  exists resp. auto.
Qed.

(** X5.  [download_assignment] succeeds exactly when the location is an
    i4x url, the record has a hash and a file name, and a blob is
    stored at the path they give.  Otherwise the first failing step
    decides the exception: AssertionError for the location, TypeError
    for an unset hash, AttributeError for a hash without a file name,
    IOError for a missing blob. *)
Theorem X5_download_assignment_outcomes (b : Block) (w : World) (request : Request) :
  (is_ok (download_assignment b w request) = true <->
   startswith (location_url b) "i4x://" = true /\
   exists h fn,
     uploaded_sha1 b = Some h /\ uploaded_filename b = Some fn /\
     is_Some (storage w !! (str_drop 6 (location_url b) +:+ "/" +:+ h +:+
                            snd (splitext fn)))) /\
  (startswith (location_url b) "i4x://" = false ->
   download_assignment b w request = Raise AssertionError) /\
  (startswith (location_url b) "i4x://" = true ->
   (uploaded_sha1 b = None -> download_assignment b w request = Raise TypeError) /\
   (is_Some (uploaded_sha1 b) -> uploaded_filename b = None ->
    download_assignment b w request = Raise (AttributeError "rfind")) /\
   (forall h fn, uploaded_sha1 b = Some h -> uploaded_filename b = Some fn ->
      storage w !! (str_drop 6 (location_url b) +:+ "/" +:+ h +:+ snd (splitext fn))
      = None ->
      download_assignment b w request
      = Raise (IOError (str_drop 6 (location_url b) +:+ "/" +:+ h +:+
                        snd (splitext fn))))).
Proof.
  unfold download_assignment, _file_storage_path.
  destruct (startswith (location_url b) "i4x://"); cbn [negb bind].
  2: { repeat split; try discriminate. intros [[=] _]. }
  destruct (uploaded_sha1 b) as [h |]; cbn [bind].
  2: { repeat split; try discriminate.
       - intros (_ & h & fn & [=] & _).
       - intros [x Hx]; discriminate. }
  destruct (uploaded_filename b) as [fn |]; cbn [bind].
  2: { repeat split; try discriminate. intros (_ & h' & fn & _ & [=] & _). }
  rewrite !append_assoc.
  split; [| split; [discriminate | intros _; repeat split; try discriminate]].
  - unfold download, storage_open.
    destruct (storage w !! _) as [data |] eqn:Hp; cbn [bind is_ok].
    + split; [| reflexivity]. intros _. split; [reflexivity |].
      exists h, fn. rewrite Hp. eauto.
    + split; [discriminate |]. intros (_ & h' & fn' & [= <-] & [= <-] & [x Hx]).
      rewrite Hp in Hx. discriminate.
  - intros h' fn' [= <-] [= <-] Hp. now apply download_missing.
Qed.

(** X6.  [staff_download] reads its inputs by key and fails with
    KeyError on the first one that is missing: module_id in the
    request; in the row's state uploaded_sha1, then uploaded_filename
    and, once the path is derived, uploaded_mimetype.  The row of a
    student who never uploaded has none of them. *)
Theorem X6_staff_download_key_errors (python_int : string -> option Z) (b : Block)
        (w : World) (request : Request) :
  (params request !! "module_id" = None ->
   staff_download python_int b w request = Raise (KeyError "module_id")) /\
  (forall t k m,
     params request !! "module_id" = Some (Text t) ->
     python_int t = Some k ->
     modules w !! k = Some m ->
     (module_state m !! "uploaded_sha1" = None ->
      staff_download python_int b w request = Raise (KeyError "uploaded_sha1")) /\
     (is_Some (module_state m !! "uploaded_sha1") ->
      module_state m !! "uploaded_filename" = None ->
      staff_download python_int b w request = Raise (KeyError "uploaded_filename")) /\
     (forall h fn,
        module_state m !! "uploaded_sha1" = Some (Some h) ->
        module_state m !! "uploaded_filename" = Some (Some fn) ->
        startswith (module_state_key m) "i4x://" = true ->
        module_state m !! "uploaded_mimetype" = None ->
        staff_download python_int b w request
        = Raise (KeyError "uploaded_mimetype"))).
Proof.
  unfold staff_download, params_get. split.
  - now intros ->.
  - intros t k m -> Hk Hm. cbn [bind StudentModule_get]. rewrite Hk, Hm.
    cbn [bind]. unfold dict_get. split; [| split].
    + now intros ->.
    + intros [v ->] ->. reflexivity.
    + intros h fn -> -> Hurl ->. cbn [bind]. unfold _file_storage_path.
      rewrite Hurl. reflexivity.
Qed.

(** X7.  The two downloads are one operation: when the row that a
    staff download names mirrors a student's record (same location,
    same hash, file name and MIME type), [staff_download] answers
    exactly as that student's own [download_assignment] does, failures
    included, whoever calls it. *)
Theorem X7_staff_download_as_own_download (python_int : string -> option Z)
        (caller student : Block) (w : World) (request request' : Request)
        (t : string) (k : Z) (m : StudentModule) :
  params request !! "module_id" = Some (Text t) ->
  python_int t = Some k ->
  modules w !! k = Some m ->
  module_state_key m = location_url student ->
  module_state m !! "uploaded_sha1" = Some (uploaded_sha1 student) ->
  module_state m !! "uploaded_filename" = Some (uploaded_filename student) ->
  module_state m !! "uploaded_mimetype" = Some (uploaded_mimetype student) ->
  staff_download python_int caller w request
  = download_assignment student w request'.
Proof.
  intros Ht Hk Hm Hkey Hs Hf Hty.
  unfold staff_download, download_assignment, params_get, dict_get.
  rewrite Ht. cbn [bind StudentModule_get]. rewrite Hk, Hm. cbn [bind].
  rewrite Hs, Hf, Hty, Hkey. cbn [bind].
  destruct (_file_storage_path _ _ _); reflexivity.
Qed.

(** ** More on uploads *)

Section UploadFurther.

Variable guess_type : string -> option string * option string.
Variable save_File_file :
  gmap string (list byte) -> string -> option exn * gmap string (list byte).

(** X8.  An upload request without a file stops before any field is
    assigned: with no [assignment] parameter at line 181 with
    KeyError, with a text value in its place at line 182 with the
    AttributeError of [upload.file]; the record stays as it was. *)
Theorem X8_upload_without_file (b : Block) (w : World) (request : Request) :
  (params request !! "assignment" = None ->
   upload_assignment guess_type save_File_file b w request
   = ([(L181, entry_frame b w)],
      Raised (KeyError "assignment") (entry_frame b w))) /\
  (forall t, params request !! "assignment" = Some (Text t) ->
     upload_assignment guess_type save_File_file b w request
     = ([(L181, entry_frame b w);
         (L182, {| self := b; world := w; upload := Some (Text t); path := None |})],
        Raised (AttributeError "file")
          {| self := b; world := w; upload := Some (Text t); path := None |})) /\
  ((forall f, params request !! "assignment" <> Some (Upload f)) ->
   block_after guess_type save_File_file CallUpload b w request = b).
Proof.
  split; [| split].
  - intros Hp. unfold upload_assignment. rewrite run_step. cbn [exec].
    unfold params_get. now rewrite Hp.
  - intros t Hp. unfold upload_assignment. rewrite run_step. cbn [exec].
    unfold params_get. rewrite Hp. rewrite run_step. reflexivity.
  - intros Hno. cbn [block_after].
    destruct (upload_assignment_no_file guess_type save_File_file b w request Hno)
      as (e & fr & -> & Hb & _).
    exact Hb.
Qed.

(** X9.  An upload replaces the record, it never merges: the four
    fields after an upload that carries a file come from the file and
    the clock alone, so two blocks that differ only in what was
    uploaded before end up equal, and uploading the same file again at
    the same instant changes nothing. *)
Theorem X9_upload_replaces_record (b b' : Block) (w : World) (request : Request)
        (f : PyFile) :
  params request !! "assignment" = Some (Upload f) ->
  block_after guess_type save_File_file CallUpload b w request
  = recorded guess_type b w f /\
  (location_url b' = location_url b -> user_is_staff b' = user_is_staff b ->
   user_id b' = user_id b ->
   block_after guess_type save_File_file CallUpload b' w request
   = block_after guess_type save_File_file CallUpload b w request) /\
  block_after guess_type save_File_file CallUpload
    (block_after guess_type save_File_file CallUpload b w request) w request
  = block_after guess_type save_File_file CallUpload b w request.
Proof.
  intros Hf. cbn [block_after].
  rewrite !(upload_assignment_file _ _ _ _ _ _ Hf). cbn [snd frame_of].
  split; [reflexivity |]. split.
  - intros H1 H2 H3. cbn. unfold recorded, set_uploaded_timestamp,
      set_uploaded_mimetype, set_uploaded_filename, set_uploaded_sha1. cbn.
    now rewrite H1, H2, H3.
  - reflexivity.
Qed.

(** X10.  In every record state that a block can be in between
    requests, the content hash is unset or the SHA-1 digest of some
    bytes: forty lowercase hexadecimal digits, never the empty string.
    So [student_state] shows no upload exactly when no hash is set. *)
Theorem X10_reachable_hash_is_digest (b : Block) :
  reachable guess_type save_File_file b ->
  (uploaded_sha1 b = None \/
   exists data, uploaded_sha1 b = Some (sha1_hexdigest data)) /\
  (forall h, uploaded_sha1 b = Some h ->
             String.length h = 40%nat /\ str_forall is_hex_char h = true) /\
  truthy (uploaded_sha1 b) = is_set (uploaded_sha1 b) /\
  (student_state b = JObject [("uploaded", JNull)] <-> uploaded_sha1 b = None).
Proof.
  intros Hr.
  assert (Hinv : uploaded_sha1 b = None \/
                 exists data, uploaded_sha1 b = Some (sha1_hexdigest data)).
  { induction Hr as [url staff uid | c b w request Hb IH]; [now left |].
    destruct c; cbn [block_after]; try exact IH.
    destruct (upload_assignment_self guess_type save_File_file b w request)
      as [-> | [f ->]]; [exact IH | right].
    now exists (drop (file_pos f) (file_content f)). }
  split; [exact Hinv |].
  destruct Hinv as [Hn | [data Hd]].
  - rewrite Hn. split; [discriminate |]. split; [reflexivity |].
    unfold student_state. rewrite Hn. now cbn.
  - rewrite Hd. pose proof (sha1_hexdigest_format data) as [Hlen Hhex].
    assert (Ht : truthy (Some (sha1_hexdigest data)) = true)
      by (apply truthy_of_length; rewrite Hlen; discriminate).
    split; [intros h [= <-]; now split |]. split; [exact Ht |].
    unfold student_state. rewrite Hd, Ht. split; discriminate.
Qed.


End UploadFurther.

(** ** The storage path as a key *)

Lemma append_cons (c : ascii) (a b : string) :
  String c a +:+ b = String c (a +:+ b).
Proof. reflexivity. Qed.

Lemma append_inj_len (a b x y : string) :
  String.length a = String.length b -> a +:+ x = b +:+ y -> a = b /\ x = y.
Proof.
  revert b; induction a as [|c a IH]; intros [|d b]; try discriminate.
  - intros _ H. now split.
  - intros [= Hlen]. rewrite !append_cons. intros [= -> H].
    destruct (IH b Hlen H) as [-> ->]. now split.
Qed.

(** X12.  Under one location the storage path is a key for the pair of
    content hash and extension, and for nothing else of the file name:
    for hashes of equal length, and so for any two SHA-1 digests, two
    paths are equal exactly when the hashes are equal and the file
    names have the same extension. *)
Theorem X12_storage_path_key (url : string) (f1 f2 : string) :
  startswith url "i4x://" = true ->
  (forall h1 h2, String.length h1 = String.length h2 ->
     (_file_storage_path url (Some h1) (Some f1)
      = _file_storage_path url (Some h2) (Some f2) <->
      h1 = h2 /\ snd (splitext f1) = snd (splitext f2))) /\
  (forall data1 data2,
     _file_storage_path url (Some (sha1_hexdigest data1)) (Some f1)
     = _file_storage_path url (Some (sha1_hexdigest data2)) (Some f2) <->
     sha1_hexdigest data1 = sha1_hexdigest data2 /\
     snd (splitext f1) = snd (splitext f2)).
Proof.
  intros Hurl.
  assert (Hkey : forall h1 h2, String.length h1 = String.length h2 ->
            (_file_storage_path url (Some h1) (Some f1)
             = _file_storage_path url (Some h2) (Some f2) <->
             h1 = h2 /\ snd (splitext f1) = snd (splitext f2))).
  { intros h1 h2 Hlen. unfold _file_storage_path. rewrite Hurl. cbn [negb].
    rewrite !append_assoc. split.
    - intros [= H].
      destruct (append_inj_len (str_drop 6 url) (str_drop 6 url) _ _ eq_refl H)
        as [_ H'].
      destruct (append_inj_len "/" "/" _ _ eq_refl H') as [_ H''].
      exact (append_inj_len h1 h2 _ _ Hlen H'').
    - now intros [-> ->]. }
  split; [exact Hkey |].
  intros data1 data2. apply Hkey.
  pose proof (sha1_hexdigest_format data1) as [-> _].
  now pose proof (sha1_hexdigest_format data2) as [-> _].
Qed.

(** ** The grading list *)

Lemma query_filter_In (course_id key : string) (table : list StudentRow)
      (row : StudentRow) :
  In row (query_filter course_id key table) <->
  In row table /\ row_course_id row = course_id /\
  module_state_key (row_module row) = key.
Proof.
  unfold query_filter. rewrite filter_In, andb_true_iff.
  now rewrite !String.eqb_eq.
Qed.

(** X13.  [staff_grading_data] lists exactly the rows of the table that
    belong to this course and this location, one entry per row, in the
    table's order, whether or not the student has uploaded: an entry
    shows the row's id, user name and full name, and for file name,
    time and score what the row's state holds under uploaded_filename,
    uploaded_timestamp and score, or None where the key is missing. *)
Theorem X13_staff_grading_data_rows (self : Block) (course_id : string)
        (table : list StudentRow) :
  map entry_module_id (assignments (staff_grading_data self course_id table))
  = map row_id
      (List.filter
         (fun row => String.eqb (row_course_id row) course_id &&
                     String.eqb (module_state_key (row_module row))
                       (location_url self))
         table) /\
  (forall e, In e (assignments (staff_grading_data self course_id table)) <->
     exists row,
       In row table /\ row_course_id row = course_id /\
       module_state_key (row_module row) = location_url self /\
       entry_module_id e = row_id row /\
       entry_username e = row_username row /\
       entry_fullname e = row_fullname row /\
       entry_filename e
       = match module_state (row_module row) !! "uploaded_filename" with
         | Some v => v
         | None => None
         end /\
       entry_timestamp e
       = match module_state (row_module row) !! "uploaded_timestamp" with
         | Some v => v
         | None => None
         end /\
       entry_score e
       = match module_state (row_module row) !! "score" with
         | Some v => v
         | None => None
         end) /\
  (length (assignments (staff_grading_data self course_id table))
   <= length table)%nat.
Proof.
  unfold staff_grading_data. cbn [assignments]. split; [| split].
  - rewrite map_map. reflexivity.
  - intros e. rewrite in_map_iff. split.
    + intros (row & <- & Hin). apply query_filter_In in Hin.
      destruct Hin as (Hin & Hc & Hk). exists row.
      repeat (split; [first [assumption | reflexivity] |]). reflexivity.
    + intros (row & Hin & Hc & Hk & H1 & H2 & H3 & H4 & H5 & H6).
      exists row. split; [| apply query_filter_In; auto].
      destruct e as [i u n fl ts sc]. cbn in H1, H2, H3, H4, H5, H6.
      unfold get_student_data, dict_get_or_none. now subst.
  - rewrite length_map. unfold query_filter. apply List.filter_length_le.
Qed.

Lemma modules_of_lookup (table : list StudentRow) (row : StudentRow) :
  List.NoDup (map row_id table) -> In row table ->
  modules_of table !! row_id row = Some (row_module row).
Proof.
  induction table as [|r table IH]; intros Hnd Hin; [destruct Hin |].
  change (modules_of (r :: table))
    with (<[row_id r := row_module r]> (modules_of table)).
  cbn [map] in Hnd. apply List.NoDup_cons_iff in Hnd. destruct Hnd as [Hnotin Hnd].
  destruct Hin as [-> | Hin]; [apply lookup_insert_eq |].
  rewrite lookup_insert_ne; [now apply IH |].
  intros E. apply Hnotin. rewrite E. now apply in_map.
Qed.

(** X14.  What the grading list shows can be fetched: for a row of
    this course and location whose state holds a hash, a file name and
    a MIME type and whose blob is stored, the list has an entry with
    the row's id and that file name, and [staff_download] with a
    module_id that denotes that id answers with the stored bytes under
    that name (ids being unique in the table). *)
Theorem X14_listed_submission_downloads (python_int : string -> option Z)
        (caller self : Block) (course_id : string)
        (table : list StudentRow) (st : gmap string (list byte)) (now : Z)
        (row : StudentRow) (h fn : string) (mimetype : option string)
        (data : list byte) (request : Request) (t : string) :
  List.NoDup (map row_id table) ->
  In row table ->
  row_course_id row = course_id ->
  module_state_key (row_module row) = location_url self ->
  startswith (location_url self) "i4x://" = true ->
  module_state (row_module row) !! "uploaded_sha1" = Some (Some h) ->
  module_state (row_module row) !! "uploaded_filename" = Some (Some fn) ->
  module_state (row_module row) !! "uploaded_mimetype" = Some mimetype ->
  st !! (str_drop 6 (location_url self) +:+ "/" +:+ h +:+ snd (splitext fn))
  = Some data ->
  params request !! "module_id" = Some (Text t) ->
  python_int t = Some (row_id row) ->
  exists e resp,
    In e (assignments (staff_grading_data self course_id table)) /\
    entry_module_id e = row_id row /\
    entry_filename e = Some fn /\
    staff_download python_int caller
      {| storage := st; modules := modules_of table; clock := now |} request
    = Ok resp /\
    concat (app_iter resp) = data /\
    content_disposition resp = Some ("attachment; filename=" +:+ fn).
Proof.
  intros Hnd Hin Hc Hk Hurl Hs Hf Ht Hd Hp Hint.
  set (w := {| storage := st; modules := modules_of table; clock := now |}).
  destruct (download_stored w _ data mimetype fn Hd) as (resp & Hr & Hcat & _ & Hdisp).
  exists (get_student_data row), resp.
  split; [| split; [reflexivity | split]].
  - unfold staff_grading_data. cbn [assignments].
    apply in_map, query_filter_In. auto.
  - cbn. unfold dict_get_or_none. now rewrite Hf.
  - split; [| auto].
    unfold staff_download, params_get, dict_get. rewrite Hp.
    cbn [bind StudentModule_get modules w]. rewrite Hint.
    rewrite (modules_of_lookup table row Hnd Hin). cbn [bind].
    rewrite Hs, Hf, Ht. cbn [bind]. unfold _file_storage_path.
    rewrite Hk, Hurl. cbn [negb bind]. rewrite !append_assoc. exact Hr.
Qed.

(** ** Settings *)

Lemma data_get_union {PyVal : Type} (data' data : gmap string PyVal)
      (key : string) (v : PyVal) :
  data_get (data' ∪ data) key v = data_get data' key (data_get data key v).
Proof.
  unfold data_get. rewrite lookup_union.
  now destruct (data' !! key), (data !! key).
Qed.

(** X15.  [save_sga] puts into each of display_name, points and weight
    the value that the request data holds under that key, whatever it
    is, and leaves a setting whose key is missing as it was; no other
    key matters.  Two saves in a row are one save of the later data
    laid over the earlier; a repeated save and a save of no data change
    nothing.  [max_score] is the points setting. *)
Theorem X15_save_sga_settings {PyVal : Type} (data data' : gmap string PyVal)
        (s : Settings PyVal) :
  (forall n, getattr_setting n (save_sga data s)
             = match data !! setting_key n with
               | Some v => v
               | None => getattr_setting n s
               end) /\
  ((forall n, data !! setting_key n = data' !! setting_key n) ->
   save_sga data s = save_sga data' s) /\
  save_sga data' (save_sga data s) = save_sga (data' ∪ data) s /\
  save_sga data (save_sga data s) = save_sga data s /\
  save_sga ∅ s = s /\
  max_score (save_sga data s)
  = match data !! "points" with Some v => v | None => max_score s end.
Proof.
  split; [intros n; now destruct n |].
  split.
  - intros H. unfold save_sga. cbn. unfold data_get.
    pose proof (H DisplayName) as H1. pose proof (H Points) as H2.
    pose proof (H Weight) as H3. cbn in H1, H2, H3. now rewrite H1, H2, H3.
  - split; [| split; [| split]].
    + unfold save_sga. cbn. now rewrite !data_get_union.
    + unfold save_sga. cbn. unfold data_get.
      now destruct (data !! "display_name"), (data !! "points"), (data !! "weight").
    + unfold save_sga. cbn. unfold data_get. rewrite !lookup_empty. now destruct s.
    + reflexivity.
Qed.

(** ** From the upload to the projection and the path *)

Lemma str_forall_impl (p q : ascii -> bool) (s : string) :
  (forall c, p c = true -> q c = true) ->
  str_forall p s = true -> str_forall q s = true.
Proof.
  intros Hpq. induction s as [|c s IH]; [reflexivity |]. cbn [str_forall].
  rewrite !andb_true_iff. intros [Hc Hs]. auto.
Qed.

Lemma rfind_absent (s : string) (c : ascii) :
  rfind s c = -1 -> str_forall (fun a => negb (Ascii.eqb a c)) s = true.
Proof.
  induction s as [|a s IH]; [reflexivity |]. rewrite rfind_cons.
  pose proof (rfind_bounds s c). cbn [str_forall].
  destruct (Z.eqb_spec (rfind s c) (-1)) as [E | E]; [| lia].
  destruct (Ascii.eqb a c); [lia |]. intros _. now rewrite IH.
Qed.

Lemma hex_char_no_slash (c : ascii) :
  is_hex_char c = true -> negb (Ascii.eqb c "/") = true.
Proof.
  destruct (Ascii.eqb_spec c "/") as [-> | _]; [discriminate | reflexivity].
Qed.

Section UploadComposed.

Variable guess_type : string -> option string * option string.
Variable save_File_file :
  gmap string (list byte) -> string -> option exn * gmap string (list byte).

(** X16.  After an upload that carries a file, the student-facing
    projection of the record names that file: [student_state] is
    {uploaded: {filename: name}} with the name of the uploaded file,
    whatever the record held before. *)
Theorem X16_projection_after_upload (b : Block) (w : World) (request : Request)
        (f : PyFile) :
  params request !! "assignment" = Some (Upload f) ->
  student_state (block_after guess_type save_File_file CallUpload b w request)
  = JObject [("uploaded", JObject [("filename", JString (file_name f))])].
Proof.
  intros Hf. cbn [block_after].
  rewrite (upload_assignment_file _ _ _ _ _ _ Hf). cbn [snd frame_of].
  unfold student_state.
  assert (Es : uploaded_sha1 (self (frame_at guess_type b w f L186))
               = Some (sha1_hexdigest (drop (file_pos f) (file_content f))))
    by reflexivity.
  assert (En : uploaded_filename (self (frame_at guess_type b w f L186))
               = Some (file_name f)) by reflexivity.
  rewrite Es, En.
  pose proof (sha1_hexdigest_format (drop (file_pos f) (file_content f))) as [Hlen _].
  rewrite truthy_of_length by (rewrite Hlen; discriminate). reflexivity.
Qed.

(** X17.  The uploaded file name cannot steer where the blob goes: for
    the record that an upload leaves at an i4x location, the storage
    path is the location without its scheme, a separator, and one name
    made of the digest and the extension, in which no separator
    occurs. *)
Theorem X17_upload_path_has_one_component (b : Block) (w : World)
        (request : Request) (f : PyFile) :
  params request !! "assignment" = Some (Upload f) ->
  startswith (location_url b) "i4x://" = true ->
  let b' := block_after guess_type save_File_file CallUpload b w request in
  let name := sha1_hexdigest (drop (file_pos f) (file_content f)) +:+
              snd (splitext (file_name f)) in
  _file_storage_path (location_url b') (uploaded_sha1 b') (uploaded_filename b')
  = Ok (str_drop 6 (location_url b) +:+ "/" +:+ name) /\
  str_forall (fun c => negb (Ascii.eqb c "/")) name = true.
Proof.
  intros Hf Hurl b' name. subst b' name. cbn [block_after].
  rewrite (upload_assignment_file _ _ _ _ _ _ Hf). cbn [snd frame_of].
  assert (Es : uploaded_sha1 (self (frame_at guess_type b w f L186))
               = Some (sha1_hexdigest (drop (file_pos f) (file_content f))))
    by reflexivity.
  assert (En : uploaded_filename (self (frame_at guess_type b w f L186))
               = Some (file_name f)) by reflexivity.
  assert (El : location_url (self (frame_at guess_type b w f L186))
               = location_url b) by reflexivity.
  rewrite Es, En, El. unfold _file_storage_path. rewrite Hurl. cbn [negb].
  rewrite !append_assoc. split; [reflexivity |].
  rewrite str_forall_app. apply andb_true_iff. split.
  - pose proof (sha1_hexdigest_format (drop (file_pos f) (file_content f))) as [_ Hhex].
    exact (str_forall_impl _ _ _ hex_char_no_slash Hhex).
  - destruct (splitext_ext_shape (file_name f)) as [-> | (t & -> & _ & Hslash)];
      [reflexivity |].
    cbn [str_forall]. now rewrite (rfind_absent t "/" Hslash).
Qed.

End UploadComposed.

(** ** The further properties on concrete inputs *)

(** X1 at report.pdf read in blocks of three bytes. *)
Lemma X1_witness :
  fst (_get_sha1 report_pdf)
  = sha1_hexdigest (drop (file_pos report_pdf) (file_content report_pdf)) /\
  hexdigest (fold_left sha1_update
               (fst (iter_read (read_fuel report_pdf) 3 report_pdf)) sha1_new)
  = fst (_get_sha1 report_pdf) /\
  file_pos (snd (_get_sha1 report_pdf)) = 0%nat /\
  file_name (snd (_get_sha1 report_pdf)) = file_name report_pdf /\
  file_content (snd (_get_sha1 report_pdf)) = file_content report_pdf.
Proof. apply (X1_get_sha1_digest_and_rewind report_pdf 3). lia. Defined.

(** A file that has been read up to its fifth byte is hashed from
    there on only. *)
Example get_sha1_from_position :
  fst (_get_sha1 {| file_name := "x"; file_content := list_byte_of_string "1234abc";
                    file_pos := 4 |})
  = "a9993e364706816aba3e25717850c26c9cd0d89d".
Proof. vm_compute. reflexivity. Qed.

(** X2 at the stored submission of student 7. *)
Lemma X2_witness :
  exists resp,
    download submitted_world "org/course/sga/hw1/abc.pdf" (Some "application/pdf")
      (Some "report.pdf") = Ok resp /\
    concat (app_iter resp) = file_content report_pdf /\
    (forall (i : nat) (b : list byte), app_iter resp !! i = Some b ->
       0 < Z.of_nat (length b) <= 8192 /\
       ((S i < length (app_iter resp))%nat -> Z.of_nat (length b) = 8192)) /\
    content_disposition resp = Some ("attachment; filename=" +:+ "report.pdf").
Proof.
  apply (X2_download_streams_blob submitted_world "org/course/sga/hw1/abc.pdf"
           (file_content report_pdf) (Some "application/pdf") "report.pdf").
  vm_compute. reflexivity.
Defined.

(** X4 at the record and the stored submission of student 7. *)
Lemma X4_witness :
  exists resp,
    download_assignment submitted_block submitted_world no_params = Ok resp /\
    concat (app_iter resp) = file_content report_pdf /\
    content_disposition resp = Some ("attachment; filename=" +:+ "report.pdf").
Proof.
  apply (X4_download_assignment_stored submitted_block submitted_world no_params
           "abc" "report.pdf" (file_content report_pdf)).
  - reflexivity.
  - reflexivity.
  - reflexivity.
  - vm_compute. reflexivity.
Defined.

(** X7 at a non-staff caller and the row of student 7. *)
Lemma X7_witness :
  staff_download decimal_int student_block submitted_world staff_download_request
  = download_assignment submitted_block submitted_world no_params.
Proof.
  apply (X7_staff_download_as_own_download decimal_int student_block
           submitted_block submitted_world staff_download_request no_params
           "7" 7 submitted_module).
  - vm_compute. reflexivity.
  - reflexivity.
  - vm_compute. reflexivity.
  - reflexivity.
  - vm_compute. reflexivity.
  - vm_compute. reflexivity.
  - vm_compute. reflexivity.
Defined.

(** X9 at the upload of report.pdf over a fresh record and over the
    record that an earlier upload of the same student left. *)
Lemma X9_witness :
  let after b := block_after excerpt_guess_type fs_save_File_file CallUpload b
                   empty_world (upload_request report_pdf) in
  after student_block
  = recorded excerpt_guess_type student_block empty_world report_pdf /\
  (location_url resubmitting_block = location_url student_block ->
   user_is_staff resubmitting_block = user_is_staff student_block ->
   user_id resubmitting_block = user_id student_block ->
   after resubmitting_block = after student_block) /\
  after (after student_block) = after student_block.
Proof.
  apply (X9_upload_replaces_record excerpt_guess_type fs_save_File_file
           student_block resubmitting_block empty_world (upload_request report_pdf)
           report_pdf).
  apply upload_request_file.
Defined.

Example upload_over_earlier_upload :
  block_after excerpt_guess_type fs_save_File_file CallUpload resubmitting_block
    empty_world (upload_request report_pdf)
  = block_after excerpt_guess_type fs_save_File_file CallUpload student_block
      empty_world (upload_request report_pdf).
Proof. vm_compute. reflexivity. Qed.

(** X10 at the record that the upload of README leaves. *)
Lemma X10_witness :
  let b := block_after excerpt_guess_type fs_save_File_file CallUpload student_block
             empty_world (upload_request readme) in
  (uploaded_sha1 b = None \/
   exists data, uploaded_sha1 b = Some (sha1_hexdigest data)) /\
  (forall h, uploaded_sha1 b = Some h ->
             String.length h = 40%nat /\ str_forall is_hex_char h = true) /\
  truthy (uploaded_sha1 b) = is_set (uploaded_sha1 b) /\
  (student_state b = JObject [("uploaded", JNull)] <-> uploaded_sha1 b = None).
Proof.
  apply (X10_reachable_hash_is_digest excerpt_guess_type fs_save_File_file).
  apply reach_call, reach_fresh.
Defined.

(** X12 at the location of homework 1: report.pdf and notes.pdf share
    a path for equal content, report.pdf and report.txt do not. *)
Lemma X12_witness :
  (forall h1 h2, String.length h1 = String.length h2 ->
     (_file_storage_path hw1_url (Some h1) (Some "report.pdf")
      = _file_storage_path hw1_url (Some h2) (Some "notes.pdf") <->
      h1 = h2 /\ snd (splitext "report.pdf") = snd (splitext "notes.pdf"))) /\
  (forall data1 data2,
     _file_storage_path hw1_url (Some (sha1_hexdigest data1)) (Some "report.pdf")
     = _file_storage_path hw1_url (Some (sha1_hexdigest data2)) (Some "notes.pdf") <->
     sha1_hexdigest data1 = sha1_hexdigest data2 /\
     snd (splitext "report.pdf") = snd (splitext "notes.pdf")).
Proof. apply (X12_storage_path_key hw1_url "report.pdf" "notes.pdf"). reflexivity. Defined.

Example same_content_other_extension :
  _file_storage_path hw1_url (Some "abc") (Some "report.pdf")
  <> _file_storage_path hw1_url (Some "abc") (Some "report.txt").
Proof. vm_compute. discriminate. Qed.

(** The grading list of homework 1: students 7 and 8, not the row of
    the other course; student 8, who has not uploaded, with no file. *)
Example grading_list_hw1 :
  assignments (staff_grading_data student_block "org/course/run" grading_table)
  = [ {| entry_module_id := 7; entry_username := "ann";
         entry_fullname := "Ann Lee"; entry_filename := Some "report.pdf";
         entry_timestamp := None; entry_score := None |};
      {| entry_module_id := 8; entry_username := "bob";
         entry_fullname := "Bob Roy"; entry_filename := None;
         entry_timestamp := None; entry_score := None |} ].
Proof. vm_compute. reflexivity. Qed.

(** X14 at the row of student 7 in the grading table. *)
Lemma X14_witness :
  exists e resp,
    In e (assignments (staff_grading_data student_block "org/course/run"
                         grading_table)) /\
    entry_module_id e = 7 /\
    entry_filename e = Some "report.pdf" /\
    staff_download decimal_int student_block grading_world staff_download_request
    = Ok resp /\
    concat (app_iter resp) = file_content report_pdf /\
    content_disposition resp = Some ("attachment; filename=" +:+ "report.pdf").
Proof.
  apply (X14_listed_submission_downloads decimal_int student_block student_block
           "org/course/run" grading_table (storage submitted_world)
           1400000000000000
           {| row_id := 7; row_course_id := "org/course/run";
              row_username := "ann"; row_fullname := "Ann Lee";
              row_module := submitted_module |}
           "abc" "report.pdf" (Some "application/pdf") (file_content report_pdf)
           staff_download_request "7").
  - repeat (apply List.NoDup_cons; [cbn; intuition discriminate |]).
    apply List.NoDup_nil.
  - left. reflexivity.
  - reflexivity.
  - reflexivity.
  - reflexivity.
  - vm_compute. reflexivity.
  - vm_compute. reflexivity.
  - vm_compute. reflexivity.
  - vm_compute. reflexivity.
  - vm_compute. reflexivity.
  - reflexivity.
Defined.

(** A student of the grading table who has not uploaded: the staff
    download ends in KeyError. *)
Example staff_download_no_upload :
  staff_download decimal_int student_block grading_world
    {| params := {[ "module_id" := Text "8" ]} |}
  = Raise (KeyError "uploaded_sha1").
Proof. vm_compute. reflexivity. Qed.

(** X16 at the upload of report.pdf. *)
Lemma X16_witness :
  student_state
    (block_after excerpt_guess_type fs_save_File_file CallUpload student_block
       empty_world (upload_request report_pdf))
  = JObject [("uploaded", JObject [("filename", JString (file_name report_pdf))])].
Proof.
  apply (X16_projection_after_upload excerpt_guess_type fs_save_File_file
           student_block empty_world (upload_request report_pdf) report_pdf).
  apply upload_request_file.
Defined.

(** X17 at the upload of a file whose name is a path with directories. *)
Lemma X17_witness :
  let f := {| file_name := "../../etc/passwd.txt";
              file_content := list_byte_of_string "abc"; file_pos := 0 |} in
  let b' := block_after excerpt_guess_type fs_save_File_file CallUpload student_block
              empty_world (upload_request f) in
  let name := sha1_hexdigest (drop (file_pos f) (file_content f)) +:+
              snd (splitext (file_name f)) in
  _file_storage_path (location_url b') (uploaded_sha1 b') (uploaded_filename b')
  = Ok (str_drop 6 (location_url student_block) +:+ "/" +:+ name) /\
  str_forall (fun c => negb (Ascii.eqb c "/")) name = true.
Proof.
  apply (X17_upload_path_has_one_component excerpt_guess_type fs_save_File_file
           student_block empty_world
           (upload_request {| file_name := "../../etc/passwd.txt";
                              file_content := list_byte_of_string "abc";
                              file_pos := 0 |})).
  - apply upload_request_file.
  - reflexivity.
Defined.

Example upload_path_of_path_name :
  let f := {| file_name := "../../etc/passwd.txt";
              file_content := list_byte_of_string "abc"; file_pos := 0 |} in
  let b' := block_after excerpt_guess_type fs_save_File_file CallUpload student_block
              empty_world (upload_request f) in
  _file_storage_path (location_url b') (uploaded_sha1 b') (uploaded_filename b')
  = Ok "org/course/sga/hw1/a9993e364706816aba3e25717850c26c9cd0d89d.txt".
Proof. vm_compute. reflexivity. Qed.
